(** * PyAthena: the SQLAlchemy dialect for Athena

    A shallow embedding of [pyathena/sqlalchemy_athena.py]: the type
    compiler, the DDL compiler for [CREATE EXTERNAL TABLE], the reflection
    type mapping and the data-catalog error helper, followed by the
    properties of the specification stated over that embedding.

    Conventions of the embedding.
    - Python [str] values are [string]; case conversion acts on the ASCII
      letters.  [None] is [option]'s [None]; Python truthiness of an
      optional string is [truthy].
    - A Python [dict] whose iteration order is observable (the table
      properties) is an association list in insertion order.
    - A raised exception is the [Raise] result, carrying the exception class.
    - The only object the compiler writes to is the [tblproperties] dict of
      the table; the compiler therefore returns the table as it is after the
      call next to its result. *)

From Stdlib Require Import String Ascii List Bool Arith ZArith Lia DecimalString.
Import ListNotations.
Open Scope string_scope.

(** ** Python strings *)

Module PyStr.

Definition LF : string := String (ascii_of_nat 10) "".
Definition TAB : string := String (ascii_of_nat 9) "".
Definition DQ : string := String (ascii_of_nat 34) "".
Definition BACKSLASH : ascii := ascii_of_nat 92.

Definition between (lo hi : nat) (c : ascii) : bool :=
  Nat.leb lo (nat_of_ascii c) && Nat.leb (nat_of_ascii c) hi.

Definition is_upper : ascii -> bool := between 65 90.
Definition is_lower : ascii -> bool := between 97 122.
Definition is_alpha (c : ascii) : bool := is_upper c || is_lower c.

Definition lower_char (c : ascii) : ascii :=
  if is_upper c then ascii_of_nat (nat_of_ascii c + 32) else c.
Definition upper_char (c : ascii) : ascii :=
  if is_lower c then ascii_of_nat (nat_of_ascii c - 32) else c.

Fixpoint map_chars (f : ascii -> ascii) (s : string) : string :=
  match s with
  | "" => ""
  | String c s' => String (f c) (map_chars f s')
  end.

(** [s.lower()] and [s.upper()] *)
Definition lower : string -> string := map_chars lower_char.
Definition upper : string -> string := map_chars upper_char.

(** [s.replace(old, new)] for a one-character [old] *)
Fixpoint replace (old : ascii) (new : string) (s : string) : string :=
  match s with
  | "" => ""
  | String c s' =>
      if Ascii.eqb c old then new ++ replace old new s'
      else String c (replace old new s')
  end.

(** [s[-1]] *)
Fixpoint last_char (s : string) : option ascii :=
  match s with
  | "" => None
  | String c "" => Some c
  | String _ s' => last_char s'
  end.

(** [sep.join(l)] *)
Definition join (sep : string) (l : list string) : string :=
  String.concat sep l.

(** [sub in s] *)
Fixpoint contains (sub s : string) : bool :=
  String.prefix sub s
  || match s with
     | "" => false
     | String _ s' => contains sub s'
     end.

(** [str(n)] for an integer *)
Definition str_of_int (n : Z) : string :=
  NilZero.string_of_int (Z.to_int n).

(** [str(x)] where [x] is a string or [None], as an f-string renders it *)
Definition str_of_opt (x : option string) : string :=
  match x with
  | Some s => s
  | None => "None"
  end.

(** Python truthiness of a value that is a string or [None] *)
Definition truthy (x : option string) : bool :=
  match x with
  | Some "" => false
  | Some _ => true
  | None => false
  end.

End PyStr.
Import PyStr.

(** ** Exceptions and results *)

Inductive exn : Type :=
| CompileError (msg : string)   (* sqlalchemy.exc.CompileError *)
| KeyError (key : string)       (* the builtin raised by a failed dict lookup *)
| NoSuchTableError (table_name : string)   (* sqlalchemy.exc.NoSuchTableError *)
| OperationalError (cause_code : option string) (msg : string)
    (* pyathena.error.OperationalError; [cause_code] is the error code of its
       [__cause__] when that is a botocore [ClientError] *)
| OtherError (msg : string).    (* any other exception *)

Inductive result (A : Type) : Type :=
| Ok (a : A)
| Raise (e : exn).
Arguments Ok {A} a.
Arguments Raise {A} e.

Definition bind {A B : Type} (m : result A) (k : A -> result B) : result B :=
  match m with
  | Ok a => k a
  | Raise e => Raise e
  end.

Notation "x <- m ;; k" := (bind m (fun x => k))
  (at level 61, m at next level, right associativity).

(** ** Python dicts in insertion order *)

Definition dict : Type := list (string * string).

(** [d.get(k)] *)
Fixpoint dict_get (k : string) (d : dict) : option string :=
  match d with
  | [] => None
  | (k', v) :: d' => if String.eqb k' k then Some v else dict_get k d'
  end.

(** [k in d] *)
Definition dict_mem (k : string) (d : dict) : bool :=
  match dict_get k d with Some _ => true | None => false end.

(** [d[k] = v]: an existing key keeps its position, a new key goes last *)
Fixpoint dict_set (k v : string) (d : dict) : dict :=
  match d with
  | [] => [(k, v)]
  | (k', v') :: d' =>
      if String.eqb k' k then (k, v) :: d' else (k', v') :: dict_set k v d'
  end.

(** [d[k]], raising [KeyError] *)
Definition dict_lookup (k : string) (d : dict) : result string :=
  match dict_get k d with
  | Some v => Ok v
  | None => Raise (KeyError k)
  end.

(** ** The module-level tables and helpers *)

Definition COMPRESSION_TBLPROPERTY_KEY : dict :=
  [ ("textfile", "compressionType");
    ("parquet", "parquet.compress");
    ("json", "compressionType") ].

Definition _format_tblproperties (properties : dict) : string :=
  let s :=
    join ("," ++ LF ++ "    ")
         (List.map (fun kv => "'" ++ fst kv ++ "'='" ++ snd kv ++ "'") properties) in
  "TBLPROPERTIES (" ++ LF ++ "    " ++ s ++ LF ++ ")".

(** ** The data model: types, columns, connections, tables *)

(** The SQL types the type compiler has a [visit_] method for, and the
    types it leaves to the compiler it inherits from: [Generic] is a type
    the inherited compiler renders, to the given keyword, and [Unsupported]
    a type the inherited compiler has no rendering for (NullType, the type
    of a column declared without one), for which it raises a CompileError
    with the given message. *)
Inductive TypeEngine : Type :=
| REAL
| NUMERIC (precision scale : option Z)
| DECIMAL (precision scale : option Z)
| INTEGER
| SMALLINT
| BIGINT
| TIMESTAMP
| DATETIME
| DATE
| TIME
| CLOB
| NCLOB
| CHAR (length : option Z) (collation : option string)
| NCHAR (length : option Z) (collation : option string)
| VARCHAR (length : option Z) (collation : option string)
| NVARCHAR (length : option Z) (collation : option string)
| TEXT
| BLOB
| BINARY
| VARBINARY
| BOOLEAN
| ARRAY (item_type : TypeEngine)
| Generic (keyword : string)
| Unsupported (message : string).

(** [schema.Column] with the [awsathena_partition] dialect option, a Python
    bool whose declared default is [False]. *)
Record Column : Type := mkColumn {
  column_name : string;
  column_type : TypeEngine;
  column_comment : option string;
  column_system : bool;
  column_partition : bool
}.

(** The raw connection of the engine a table is bound to. *)
Record Connection : Type := mkConnection {
  _kwargs : dict;
  s3_staging_dir : option string;
  schema_name : string
}.

(** [schema.Table] with the [awsathena_*] dialect options; [table_bind] is
    [table.bind.raw_connection()] when the table is bound. *)
Record Table : Type := mkTable {
  table_name : string;
  table_schema : option string;
  table_columns : list Column;
  table_comment : option string;
  table_bind : option Connection;
  opt_compression : option string;
  opt_location : option string;
  opt_row_format : option string;
  opt_stored_as : option string;
  opt_tblproperties : option dict
}.

Definition set_tblproperties (t : Table) (d : dict) : Table :=
  mkTable (table_name t) (table_schema t) (table_columns t) (table_comment t)
          (table_bind t) (opt_compression t) (opt_location t)
          (opt_row_format t) (opt_stored_as t) (Some d).

(** What the compilers take from the toolkit: the DDL identifier preparer's
    quoting of a table name under its schema and of a column name, the
    flag of the dialect's identifier preparer that says whether percent
    signs are doubled, and the generic type compiler's rendering of a
    string type from its length, its collation and a keyword. *)
Class Toolkit : Type := {
  format_table : option string -> string -> string;
  format_column : string -> string;
  _double_percents : bool;
  _render_string_type : option Z -> option string -> string -> string
}.

(** ** AthenaTypeCompiler *)

Module AthenaTypeCompiler.
Section TypeCompiler.

Context {tk : Toolkit}.

Definition visit_DECIMAL (precision scale : option Z) : result string :=
  match precision, scale with
  | None, _ => Ok "DECIMAL"
  | Some p, None => Ok ("DECIMAL(" ++ str_of_int p ++ ")")
  | Some p, Some s =>
      Ok ("DECIMAL(" ++ str_of_int p ++ ", " ++ str_of_int s ++ ")")
  end.

Definition visit_INTEGER (type_expression : option Column) : result string :=
  match type_expression with
  | Some _ => Ok "INT"
  | None => Ok "INTEGER"
  end.

Definition visit_TIME : result string :=
  Raise (CompileError ("Data type `" ++ "TIME" ++ "` is not supported")).

Definition visit_BINARY : result string := Ok "BINARY".

Definition visit_CHAR (length : option Z) (collation : option string)
  : result string :=
  Ok (_render_string_type length collation "CHAR").

Definition visit_NCHAR (length : option Z) (collation : option string)
  : result string :=
  Ok (_render_string_type length collation "CHAR").

(** [not type_.length] *)
Definition no_length (length : option Z) : bool :=
  match length with
  | Some n => Z.eqb n 0
  | None => true
  end.

Definition missing_length_message (name : string) : string :=
  "Column " ++ DQ ++ name ++ DQ ++ " is of type " ++ DQ ++ "String" ++ DQ
  ++ " but has no length. "
  ++ "Athena does not support " ++ DQ ++ "String" ++ DQ
  ++ " (SQL type VARCHAR) without length. "
  ++ "You must either provide one or use the type " ++ DQ ++ "Text" ++ DQ
  ++ " (SQL type STRING)".

Definition visit_VARCHAR (length : option Z) (collation : option string)
    (type_expression : option Column) : result string :=
  match type_expression with
  | Some column =>
      if no_length length
      then Raise (CompileError (missing_length_message (column_name column)))
      else Ok (_render_string_type length collation "VARCHAR")
  | None => Ok (_render_string_type length collation "VARCHAR")
  end.

Definition visit_NVARCHAR (length : option Z) (collation : option string)
    (type_expression : option Column) : result string :=
  match type_expression with
  | Some column =>
      if no_length length
      then Raise (CompileError (missing_length_message (column_name column)))
      else Ok (_render_string_type length collation "VARCHAR")
  | None => Ok (_render_string_type length collation "VARCHAR")
  end.

(** The dispatch of [process] on the type's visit name; [type_expression]
    is the column when the type is compiled for a column definition. *)
Fixpoint process (type_ : TypeEngine) (type_expression : option Column)
  : result string :=
  match type_ with
  | REAL => Ok "DOUBLE"
  | NUMERIC p s => visit_DECIMAL p s
  | DECIMAL p s => visit_DECIMAL p s
  | INTEGER => visit_INTEGER type_expression
  | SMALLINT => Ok "SMALLINT"
  | BIGINT => Ok "BIGINT"
  | TIMESTAMP => Ok "TIMESTAMP"
  | DATETIME => Ok "TIMESTAMP"
  | DATE => Ok "DATE"
  | TIME => visit_TIME
  | CLOB => visit_BINARY
  | NCLOB => visit_BINARY
  | CHAR l c => visit_CHAR l c
  | NCHAR l c => visit_NCHAR l c
  | VARCHAR l c => visit_VARCHAR l c type_expression
  | NVARCHAR l c => visit_NVARCHAR l c type_expression
  | TEXT => Ok "STRING"
  | BLOB => visit_BINARY
  | BINARY => visit_BINARY
  | VARBINARY => visit_BINARY
  | BOOLEAN => Ok "BOOLEAN"
  | ARRAY item_type =>
      item <- process item_type None ;;
      Ok ("ARRAY<" ++ item ++ ">")
  | Generic keyword => Ok keyword
  | Unsupported message => Raise (CompileError message)
  end.

End TypeCompiler.
End AthenaTypeCompiler.

(** ** AthenaDDLCompiler *)

Module AthenaDDLCompiler.
Section Compiler.

Context {tk : Toolkit}.

Definition _escape_comment (value : string) : string :=
  let value := replace "'" "\'" (replace BACKSLASH "\\" value) in
  let value := if _double_percents then replace "%" "%%" value else value in
  "'" ++ value ++ "'".

Definition get_column_specification (column : Column) : result string :=
  type_text <- AthenaTypeCompiler.process (column_type column) (Some column) ;;
  let colspec := format_column (column_name column) ++ " " ++ type_text in
  let comment :=
    if truthy (column_comment column)
    then " COMMENT " ++ _escape_comment (str_of_opt (column_comment column))
    else "" in
  Ok (colspec ++ comment).

(** [self.process(create_column)]: the toolkit's [visit_create_column]
    gives [None] for a system column and the column specification for any
    other column. *)
Definition visit_create_column (column : Column) : result (option string) :=
  if column_system column then Ok None
  else
    text <- get_column_specification column ;;
    Ok (Some text).

(** The [for] loop of [_get_columns_specs], with its two variables. *)
Fixpoint _get_columns_specs_loop (description : string) (partitions : bool)
    (columns : list Column) (text separator : string) : result string :=
  match columns with
  | [] => Ok text
  | column :: columns' =>
      if negb (Bool.eqb (column_partition column) partitions)
      then _get_columns_specs_loop description partitions columns' text separator
      else
        match visit_create_column column with
        | Ok None =>
            _get_columns_specs_loop description partitions columns' text separator
        | Ok (Some processed) =>
            _get_columns_specs_loop description partitions columns'
              ((text ++ separator) ++ (TAB ++ processed)) (", " ++ LF)
        | Raise (CompileError msg) =>
            Raise (CompileError
                     ("(in table '" ++ description ++ "', column '"
                      ++ column_name column ++ "'): " ++ msg))
        | Raise e => Raise e
        end
  end.

Definition _get_columns_specs (create : Table) (partitions : bool)
  : result string :=
  _get_columns_specs_loop (table_name create) partitions
                          (table_columns create) "" LF.

(** Lines 305-317 of [post_create_table]: the location, or [None]. *)
Definition resolve_location (table : Table) : option string :=
  if truthy (opt_location table) then
    let location := str_of_opt (opt_location table) in
    Some (location
          ++ match last_char location with
             | Some "/"%char => ""
             | _ => "/"
             end)
  else
    match table_bind table with
    | Some raw_connection =>
        let base_location :=
          if dict_mem "s3_dir" (_kwargs raw_connection)
          then dict_get "s3_dir" (_kwargs raw_connection)
          else s3_staging_dir raw_connection in
        let schema :=
          if truthy (table_schema table)
          then str_of_opt (table_schema table)
          else schema_name raw_connection in
        Some (str_of_opt base_location ++ schema ++ "/"
              ++ table_name table ++ "/")
    | None => None
    end.

(** Lines 318-328: the check of the resolved location. *)
Definition require_location (table : Table) : result string :=
  let location := resolve_location table in
  if negb (truthy location) then
    match table_bind table with
    | Some _ =>
        Raise (CompileError
                 ("`s3_dir` or `s3_staging_dir` parameter is required"
                  ++ " in the connection string."))
    | None =>
        Raise (CompileError
                 ("You need to specify the storage location for the table "
                  ++ "using the `awsathena_location` dialect keyword argument"))
    end
  else Ok (str_of_opt location).

(** Lines 300-302: the storage format, [PARQUET] when none is given. *)
Definition resolve_stored_as (table : Table) : string :=
  if negb (truthy (opt_stored_as table)) then "PARQUET"
  else str_of_opt (opt_stored_as table).

(** Lines 332-338: the compression codec, or [None]. *)
Definition resolve_compression (table : Table) : option string :=
  if truthy (opt_compression table) then opt_compression table
  else
    match table_bind table with
    | Some raw_connection => dict_get "compression" (_kwargs raw_connection)
    | None => None
    end.

(** Line 331, [dialect_opts["tblproperties"] or dict()]: the table's own
    dict when it is non-empty ([true]: the local name is an alias of it),
    a new empty dict otherwise. *)
Definition local_tblproperties (table : Table) : dict * bool :=
  match opt_tblproperties table with
  | Some (kv :: d) => (kv :: d, true)
  | _ => ([], false)
  end.

(** Lines 331-341: the mapping that is rendered.  A storage format without
    an entry in [COMPRESSION_TBLPROPERTY_KEY] raises [KeyError]. *)
Definition resolve_tblproperties (table : Table) (stored_as : string)
  : result dict :=
  let tblproperties := fst (local_tblproperties table) in
  let compression := resolve_compression table in
  if truthy compression then
    compression_key <-
      dict_lookup (lower stored_as) COMPRESSION_TBLPROPERTY_KEY ;;
    Ok (dict_set compression_key (upper (str_of_opt compression))
                 tblproperties)
  else Ok tblproperties.

(** The text of the clauses that follow the column list, and the table as
    the call leaves it: the write of line 341 reaches the table's own dict
    when the local name is an alias of it. *)
Definition post_create_table (create : Table) : result (string * Table) :=
  let table := create in
  let text := "" in
  let text :=
    if truthy (table_comment table)
    then text ++ ("COMMENT "
                  ++ _escape_comment (str_of_opt (table_comment table)) ++ LF)
    else text in
  partition_columns_specs <- _get_columns_specs create true ;;
  let text :=
    if negb (String.eqb partition_columns_specs "")
    then text ++ ("PARTITIONED BY (" ++ partition_columns_specs ++ LF ++ ")" ++ LF)
    else text in
  let text :=
    if truthy (opt_row_format table)
    then text ++ ("ROW FORMAT " ++ str_of_opt (opt_row_format table) ++ LF)
    else text in
  let stored_as := resolve_stored_as table in
  let text := text ++ ("STORED AS " ++ stored_as ++ LF) in
  location <- require_location table ;;
  let text := text ++ ("LOCATION '" ++ location ++ "'" ++ LF) in
  tblproperties <- resolve_tblproperties table stored_as ;;
  let table :=
    if snd (local_tblproperties table)
    then set_tblproperties table tblproperties
    else table in
  let text :=
    match tblproperties with
    | [] => text
    | _ => text ++ (_format_tblproperties tblproperties ++ LF)
    end in
  Ok (text, table).

Definition visit_create_table (create : Table) : result (string * Table) :=
  let table := create in
  let text := LF ++ "CREATE EXTERNAL " in
  let text :=
    text ++ ("TABLE " ++ format_table (table_schema table) (table_name table)
             ++ " (") in
  specs <- _get_columns_specs create false ;;
  let text := text ++ specs in
  post <- post_create_table create ;;
  Ok (text ++ (LF ++ ")" ++ LF ++ fst post ++ LF ++ LF), snd post).

(** One compilation of a [CREATE TABLE] for [table]: the SQL text or the
    exception, and the table afterwards.  Every [raise] of the compiler
    precedes the write of line 341, so an exception leaves the table as
    it was. *)
Definition compile (table : Table) : result string * Table :=
  match visit_create_table table with
  | Ok (text, table') => (Ok text, table')
  | Raise e => (Raise e, table)
  end.

End Compiler.
End AthenaDDLCompiler.

(** A toolkit instance for examples: names are rendered as they are,
    percent signs are doubled, and a string type is its keyword, its length
    in parentheses when it has one, and its collation when it has one. *)
Definition plain_toolkit : Toolkit :=
  {| format_table := fun _ name => name;
     format_column := fun name => name;
     _double_percents := true;
     _render_string_type := fun length collation name =>
       let text := name in
       let text :=
         match length with
         | Some n =>
             if Z.eqb n 0 then text else text ++ "(" ++ str_of_int n ++ ")"
         | None => text
         end in
       match collation with
       | Some c =>
           if String.eqb c "" then text
           else text ++ " COLLATE " ++ DQ ++ c ++ DQ
       | None => text
       end |}.

Definition events : Table :=
  {| table_name := "events";
     table_schema := None;
     table_columns :=
       [ mkColumn "id" INTEGER None false false;
         mkColumn "dt" DATE None false true ];
     table_comment := None;
     table_bind := None;
     opt_compression := Some "snappy";
     opt_location := Some "s3://b/events/";
     opt_row_format := None;
     opt_stored_as := Some "parquet";
     opt_tblproperties := None |}.


(** ** Regular expressions, as the [re] module matches them

    A backtracking matcher in continuation-passing style: alternatives are
    tried left to right, [+] is greedy, and a capture made on a path that is
    later abandoned is dropped with the path. *)

Module Re.

Inductive regex : Type :=
| Str (s : string)                 (* literal text *)
| Set_ (p : ascii -> bool)         (* a character class *)
| Bol                              (* ^ *)
| Eol                              (* $ *)
| Plus (p : ascii -> bool)         (* X+ for a one-character X *)
| Cat (r1 r2 : regex)
| Alt (r1 r2 : regex)
| Group (name : string) (r : regex).

(** [.] without DOTALL *)
Definition dot (c : ascii) : bool := negb (Ascii.eqb c (ascii_of_nat 10)).

Definition one_of (cs : string) (c : ascii) : bool :=
  contains (String c "") cs.

Definition captures : Type := list (string * string).

Fixpoint drop (n : nat) (s : string) : string :=
  match n, s with
  | S n', String _ s' => drop n' s'
  | _, _ => s
  end.

Section Matcher.
Context {R : Type}.

(** Greedy [p+] at [rest]: take one more character first, and only
    when that path fails hand over to the continuation. *)
Fixpoint plus (p : ascii -> bool) (pos : nat) (rest : string)
    (k : nat -> string -> option R) : option R :=
  match rest with
  | String c rest' =>
      if p c then
        match plus p (S pos) rest' k with
        | Some x => Some x
        | None => k (S pos) rest'
        end
      else None
  | "" => None
  end.

(** [run r pos rest caps k]: match [r] at offset [pos], where [rest] is
    the text from [pos] on, then continue with [k]. *)
Fixpoint run (r : regex) (pos : nat) (rest : string) (caps : captures)
    (k : nat -> string -> captures -> option R) : option R :=
  match r with
  | Str s =>
      if String.prefix s rest
      then k (pos + String.length s) (drop (String.length s) rest) caps
      else None
  | Set_ p =>
      match rest with
      | String c rest' => if p c then k (S pos) rest' caps else None
      | "" => None
      end
  | Bol => if Nat.eqb pos 0 then k pos rest caps else None
  | Eol =>
      if String.eqb rest "" || String.eqb rest LF
      then k pos rest caps else None
  | Plus p => plus p pos rest (fun pos' rest' => k pos' rest' caps)
  | Cat r1 r2 =>
      run r1 pos rest caps (fun pos' rest' caps' => run r2 pos' rest' caps' k)
  | Alt r1 r2 =>
      match run r1 pos rest caps k with
      | Some x => Some x
      | None => run r2 pos rest caps k
      end
  | Group name r1 =>
      run r1 pos rest caps
          (fun pos' rest' caps' =>
             k pos' rest'
               ((name, String.substring 0 (pos' - pos) rest) :: caps'))
  end.
End Matcher.

(** A match object: the end offset and the groups that took part. *)
Definition match_at (r : regex) (pos : nat) (rest : string)
  : option (nat * captures) :=
  run r pos rest [] (fun pos' _ caps => Some (pos', caps)).

(** [match.group(name)]; [None] for a group that did not take part *)
Fixpoint group (name : string) (caps : captures) : option string :=
  match caps with
  | [] => None
  | (n, v) :: caps' => if String.eqb n name then Some v else group name caps'
  end.

(** [pattern.search(text)]: the leftmost match *)
Fixpoint search_from (r : regex) (pos : nat) (rest : string)
  : option captures :=
  match match_at r pos rest with
  | Some (_, caps) => Some caps
  | None =>
      match rest with
      | String _ rest' => search_from r (S pos) rest'
      | "" => None
      end
  end.

Definition search (r : regex) (text : string) : option captures :=
  search_from r 0 text.

(** [pattern.sub(template, text)] for a template that is one group
    reference: every match, left to right, is replaced by the text of
    group [g].  [skip] counts the characters of the current match that are
    still to be passed over. *)
Fixpoint sub_from (r : regex) (g : string) (pos : nat) (rest : string)
    (skip : nat) : string :=
  match skip with
  | S skip' =>
      match rest with
      | String _ rest' => sub_from r g (S pos) rest' skip'
      | "" => ""
      end
  | 0 =>
      match match_at r pos rest with
      | Some (pos', caps) =>
          let repl := match group g caps with Some v => v | None => "" end in
          match rest with
          | String c rest' =>
              if Nat.eqb pos' pos
              then repl ++ String c (sub_from r g (S pos) rest' 0)
              else repl ++ sub_from r g (S pos) rest' (pos' - pos - 1)
          | "" => repl
          end
      | None =>
          match rest with
          | String c rest' => String c (sub_from r g (S pos) rest' 0)
          | "" => ""
          end
      end
  end.

Definition sub (r : regex) (g : string) (text : string) : string :=
  sub_from r g 0 text 0.

End Re.

(** ** Reflection: the type mapping *)

(** The values of [_TYPE_MAPPINGS] and its default, from
    [sqlalchemy.sql.sqltypes]. *)
Module sqltypes.
Inductive t : Type :=
| BOOLEAN | FLOAT | INTEGER | BIGINT | DECIMAL | STRINGTYPE | BINARY
| DATE | TIMESTAMP | TEXT | NULLTYPE.
End sqltypes.

Definition _TYPE_MAPPINGS : list (string * sqltypes.t) :=
  [ ("boolean", sqltypes.BOOLEAN);
    ("real", sqltypes.FLOAT);
    ("float", sqltypes.FLOAT);
    ("double", sqltypes.FLOAT);
    ("tinyint", sqltypes.INTEGER);
    ("smallint", sqltypes.INTEGER);
    ("int", sqltypes.INTEGER);
    ("integer", sqltypes.INTEGER);
    ("bigint", sqltypes.BIGINT);
    ("decimal", sqltypes.DECIMAL);
    ("char", sqltypes.STRINGTYPE);
    ("varchar", sqltypes.STRINGTYPE);
    ("array", sqltypes.STRINGTYPE);
    ("row", sqltypes.STRINGTYPE);
    ("struct", sqltypes.STRINGTYPE);
    ("varbinary", sqltypes.BINARY);
    ("binary", sqltypes.BINARY);
    ("map", sqltypes.STRINGTYPE);
    ("date", sqltypes.DATE);
    ("timestamp", sqltypes.TIMESTAMP);
    ("string", sqltypes.TEXT) ].

(** [_TYPE_MAPPINGS.get(k, default)] *)
Fixpoint mapping_get (k : string) (d : list (string * sqltypes.t))
    (default : sqltypes.t) : sqltypes.t :=
  match d with
  | [] => default
  | (k', v) :: d' => if String.eqb k' k then v else mapping_get k d' default
  end.

(** [x == s] for [x] a string or [None] and [s] a string *)
Definition option_eqb (x : option string) (s : string) : bool :=
  match x with
  | Some v => String.eqb v s
  | None => false
  end.

(** ** AthenaDialect *)

(** The remote catalog's description of a column and of a table. *)
Record ColumnMetadata : Type := mkColumnMetadata {
  meta_name : string;
  meta_type : string;
  meta_comment : option string
}.

Record TableMetadata : Type := mkTableMetadata {
  meta_columns : list ColumnMetadata;
  meta_partition_keys : list ColumnMetadata;
  meta_table_comment : option string
}.

(** An entry of the list [get_columns] returns. *)
Record ColumnSpec : Type := mkColumnSpec {
  spec_name : string;
  spec_type : sqltypes.t;
  spec_nullable : bool;
  spec_comment : option string;
  spec_partition : bool
}.

Module AthenaDialect.
Import Re.

(** [(((Database|Namespace)\ (?P<schema>.+))|(Table\ (?P<table>.+)))\ not\ found\.] *)
Definition _pattern_data_catlog_exception : regex :=
  Cat (Group "1"
         (Alt (Group "2"
                 (Cat (Group "3" (Alt (Str "Database") (Str "Namespace")))
                      (Cat (Str " ") (Group "schema" (Plus dot)))))
              (Group "5"
                 (Cat (Str "Table")
                      (Cat (Str " ") (Group "table" (Plus dot)))))))
      (Str " not found.").

(** [^([a-zA-Z]+)($|[(<].+[)>]$)] *)
Definition _pattern_column_type : regex :=
  Cat Bol
      (Cat (Group "1" (Plus is_alpha))
           (Group "2"
              (Alt Eol
                   (Cat (Set_ (one_of "(<"))
                        (Cat (Plus dot)
                             (Cat (Set_ (one_of ")>")) Eol)))))).

Definition _get_column_type (type_ : string) : string :=
  sub _pattern_column_type "1" type_.

(** [exc] is given by whether it is a [sqlalchemy.exc.OperationalError]
    and by [str(exc)]. *)
Definition _retry_if_data_catalog_exception
    (is_operational : bool) (text : string) (schema table_name : string)
  : bool :=
  if negb is_operational then false
  else
    match search _pattern_data_catlog_exception text with
    | Some m =>
        if option_eqb (group "schema" m) schema
           || option_eqb (group "table" m) table_name
        then false
        else true
    | None => true
    end.

Section Reflection.

(** The collaborators: the raw connection and the cursor's
    [_get_table_metadata(table_name, schema_name=schema)]. *)
Variable raw_connection : Connection.
Variable _get_table_metadata : string -> string -> result TableMetadata.

Definition _get_table (table_name : string) (schema : option string)
  : result TableMetadata :=
  let schema :=
    if truthy schema then str_of_opt schema
    else schema_name raw_connection in
  match _get_table_metadata table_name schema with
  | Raise (OperationalError (Some code) msg) =>
      if String.eqb code "MetadataException"
      then Raise (NoSuchTableError table_name)
      else Raise (OperationalError (Some code) msg)
  | r => r
  end.

Definition column_spec (partition : bool) (column : ColumnMetadata)
  : ColumnSpec :=
  {| spec_name := meta_name column;
     spec_type :=
       mapping_get (_get_column_type (meta_type column)) _TYPE_MAPPINGS
                   sqltypes.NULLTYPE;
     spec_nullable := true;
     spec_comment := meta_comment column;
     spec_partition := partition |}.

Definition get_columns (table_name : string) (schema : option string)
  : result (list ColumnSpec) :=
  metadata <- _get_table table_name schema ;;
  let columns_specs : list ColumnSpec := [] in
  let columns_specs :=
    fold_left (fun acc column => (acc ++ [column_spec false column])%list)
              (meta_columns metadata) columns_specs in
  let columns_specs :=
    fold_left (fun acc column => (acc ++ [column_spec true column])%list)
              (meta_partition_keys metadata) columns_specs in
  Ok columns_specs.

Definition has_table (table_name : string) (schema : option string)
  : result bool :=
  match get_columns table_name schema with
  | Ok [] => Ok false
  | Ok (_ :: _) => Ok true
  | Raise (NoSuchTableError _) => Ok false
  | Raise e => Raise e
  end.

End Reflection.

End AthenaDialect.

Definition events_sql : string :=
  Eval vm_compute in
    match @AthenaDDLCompiler.compile plain_toolkit events with
    | (Ok text, _) => text
    | (Raise _, _) => ""
    end.

(** A table with a [CHAR] column that has no length. *)
Definition codes : Table :=
  {| table_name := "codes";
     table_schema := None;
     table_columns := [ mkColumn "code" (CHAR None None) None false false ];
     table_comment := None;
     table_bind := None;
     opt_compression := None;
     opt_location := Some "s3://b/codes";
     opt_row_format := None;
     opt_stored_as := None;
     opt_tblproperties := None |}.

Definition codes_sql : string :=
  LF ++ "CREATE EXTERNAL TABLE codes (" ++ LF
  ++ TAB ++ "code CHAR" ++ LF
  ++ ")" ++ LF
  ++ "STORED AS PARQUET" ++ LF
  ++ "LOCATION 's3://b/codes/'" ++ LF ++ LF ++ LF.

(** A table with no location option that is not bound to a connection. *)
Definition orphan : Table :=
  {| table_name := "orphan";
     table_schema := None;
     table_columns := [ mkColumn "id" INTEGER None false false ];
     table_comment := None;
     table_bind := None;
     opt_compression := None;
     opt_location := None;
     opt_row_format := None;
     opt_stored_as := None;
     opt_tblproperties := None |}.

(** A connection made with a work group and no staging directory, and a
    table bound to it. *)
Definition workgroup_connection : Connection :=
  {| _kwargs := [("work_group", "primary")];
     s3_staging_dir := None;
     schema_name := "default" |}.

Definition adrift : Table :=
  {| table_name := "adrift";
     table_schema := None;
     table_columns := [ mkColumn "id" INTEGER None false false ];
     table_comment := None;
     table_bind := Some workgroup_connection;
     opt_compression := None;
     opt_location := None;
     opt_row_format := None;
     opt_stored_as := None;
     opt_tblproperties := None |}.

(** A text-file table compressed with gzip. *)
Definition logs : Table :=
  {| table_name := "logs";
     table_schema := None;
     table_columns := [ mkColumn "line" TEXT None false false ];
     table_comment := None;
     table_bind := None;
     opt_compression := Some "gzip";
     opt_location := Some "s3://b/logs/";
     opt_row_format := None;
     opt_stored_as := Some "textfile";
     opt_tblproperties := None |}.

(** A compressed table in a storage format that has no entry in
    [COMPRESSION_TBLPROPERTY_KEY]. *)
Definition clicks : Table :=
  {| table_name := "clicks";
     table_schema := None;
     table_columns := [ mkColumn "id" INTEGER None false false ];
     table_comment := None;
     table_bind := None;
     opt_compression := Some "snappy";
     opt_location := Some "s3://b/clicks/";
     opt_row_format := None;
     opt_stored_as := Some "ORC";
     opt_tblproperties := None |}.

(** A compressed table that comes with table properties of its own. *)
Definition tagged : Table :=
  {| table_name := "tagged";
     table_schema := None;
     table_columns := [ mkColumn "id" INTEGER None false false ];
     table_comment := None;
     table_bind := None;
     opt_compression := Some "snappy";
     opt_location := Some "s3://b/tagged/";
     opt_row_format := None;
     opt_stored_as := Some "parquet";
     opt_tblproperties := Some [("owner", "etl")] |}.

(** A connection made with a default compression codec, a table bound to
    it that names no codec of its own and writes its storage format in
    capitals, and one that names a codec of its own. *)
Definition gzip_connection : Connection :=
  {| _kwargs := [("compression", "gzip")];
     s3_staging_dir := Some "s3://b/staging/";
     schema_name := "default" |}.

Definition archive : Table :=
  {| table_name := "archive";
     table_schema := None;
     table_columns := [ mkColumn "id" INTEGER None false false ];
     table_comment := None;
     table_bind := Some gzip_connection;
     opt_compression := None;
     opt_location := Some "s3://b/archive/";
     opt_row_format := None;
     opt_stored_as := Some "JSON";
     opt_tblproperties := None |}.

Definition squeezed : Table :=
  {| table_name := "squeezed";
     table_schema := None;
     table_columns := [ mkColumn "id" INTEGER None false false ];
     table_comment := None;
     table_bind := Some gzip_connection;
     opt_compression := Some "snappy";
     opt_location := Some "s3://b/squeezed/";
     opt_row_format := None;
     opt_stored_as := Some "PARQUET";
     opt_tblproperties := Some [("owner", "etl")] |}.

(** ** AthenaDialect: the lists of tables and views *)

(** An entry of the catalog's list of tables: its name and its
    [table_type]. *)
Record TableEntry : Type := mkTableEntry {
  entry_name : string;
  entry_table_type : string
}.

Section Listing.

(** The collaborators: the raw connection, and the cursor's
    [_list_table_metadata(schema_name=schema, next_token=next_token)],
    which answers with the next token and a page of entries. *)
Variable raw_connection : Connection.
Variable _list_table_metadata :
  string -> option string -> result (option string * list TableEntry).

(** The [while True] loop of [_get_tables], with its two variables.  The
    loop ends when the catalog ends the list; [fuel] bounds the number of
    pages that are asked for, and [None] is a loop that was cut short. *)
Fixpoint _get_tables_loop (fuel : nat) (schema : string)
    (next_token : option string) (tables : list TableEntry)
  : option (result (list TableEntry)) :=
  match fuel with
  | 0 => None
  | S fuel' =>
      match _list_table_metadata schema next_token with
      | Raise e => Some (Raise e)
      | Ok (next_token, response) =>
          let tables := (tables ++ response)%list in
          if negb (truthy next_token) then Some (Ok tables)
          else _get_tables_loop fuel' schema next_token tables
      end
  end.

Definition _get_tables (fuel : nat) (schema : option string)
  : option (result (list TableEntry)) :=
  let schema :=
    if truthy schema then str_of_opt schema
    else schema_name raw_connection in
  let tables := [] in
  let next_token := None in
  _get_tables_loop fuel schema next_token tables.

Definition get_table_names (fuel : nat) (schema : option string)
  : option (result (list string)) :=
  match _get_tables fuel schema with
  | Some (Ok tables) =>
      Some (Ok (List.map entry_name
                  (filter (fun t => String.eqb (entry_table_type t)
                                               "EXTERNAL_TABLE")
                          tables)))
  | Some (Raise e) => Some (Raise e)
  | None => None
  end.

Definition get_view_names (fuel : nat) (schema : option string)
  : option (result (list string)) :=
  match _get_tables fuel schema with
  | Some (Ok tables) =>
      Some (Ok (List.map entry_name
                  (filter (fun t => String.eqb (entry_table_type t)
                                               "VIRTUAL_VIEW")
                          tables)))
  | Some (Raise e) => Some (Raise e)
  | None => None
  end.

(** The pages of a list that the catalog ends: every page but the last
    comes with a token for the next one. *)
Inductive pages_from (schema : string)
  : option string -> list (list TableEntry) -> Prop :=
| pages_last (token next_token : option string) (response : list TableEntry) :
    _list_table_metadata schema token = Ok (next_token, response) ->
    truthy next_token = false ->
    pages_from schema token [response]
| pages_next (token next_token : option string) (response : list TableEntry)
    (pages : list (list TableEntry)) :
    _list_table_metadata schema token = Ok (next_token, response) ->
    truthy next_token = true ->
    pages_from schema next_token pages ->
    pages_from schema token (response :: pages).

End Listing.

(** ** AthenaDialect: the arguments of a connection *)

(** The parts of a connection URL that [_create_connect_args] reads; the
    query is a dict of strings. *)
Record URL : Type := mkURL {
  url_username : option string;
  url_password : option string;
  url_host : string;
  url_database : option string;
  url_query : dict
}.

(** [^athena\.([a-z0-9-]+)\.amazonaws\.(com|com.cn)$]; the dot of [com.cn]
    is not escaped and stands for any character. *)
Definition region_char (c : ascii) : bool :=
  is_lower c || between 48 57 c || Ascii.eqb c "-".

Definition _pattern_region : Re.regex :=
  Re.Cat Re.Bol
    (Re.Cat (Re.Str "athena.")
       (Re.Cat (Re.Group "1" (Re.Plus region_char))
          (Re.Cat (Re.Str ".amazonaws.")
             (Re.Cat (Re.Group "2"
                        (Re.Alt (Re.Str "com")
                                (Re.Cat (Re.Str "com")
                                        (Re.Cat (Re.Set_ Re.dot)
                                                (Re.Str "cn")))))
                     Re.Eol)))).

Section ConnectArgs.

(** Python's floats, and the builtins and the library function the
    coercions call; [None] is their [ValueError]. *)
Variable float_t : Type.
Variable strtobool : string -> option bool.
Variable int : string -> option Z.
Variable float : string -> option float_t.

(** A value of the dict of connection arguments. *)
Inductive optval : Type :=
| VNone
| VStr (s : string)
| VBool (b : bool)
| VInt (n : Z)
| VFloat (x : float_t).

Definition opts_t : Type := list (string * optval).

(** [opts.get(k)], [k in opts] and [opts.update({k: v})] *)
Fixpoint opts_get (k : string) (opts : opts_t) : option optval :=
  match opts with
  | [] => None
  | (k', v) :: opts' => if String.eqb k' k then Some v else opts_get k opts'
  end.

Definition opts_mem (k : string) (opts : opts_t) : bool :=
  match opts_get k opts with Some _ => true | None => false end.

Fixpoint opts_set (k : string) (v : optval) (opts : opts_t) : opts_t :=
  match opts with
  | [] => [(k, v)]
  | (k', v') :: opts' =>
      if String.eqb k' k then (k, v) :: opts'
      else (k', v') :: opts_set k v opts'
  end.

(** [opts.update(query)] *)
Definition opts_update (opts : opts_t) (query : dict) : opts_t :=
  fold_left (fun acc kv => opts_set (fst kv) (VStr (snd kv)) acc) query opts.

Definition ValueError : exn := OtherError "ValueError".

Definition _create_connect_args (url : URL) : result opts_t :=
  let opts :=
    [ ("aws_access_key_id",
       if truthy (url_username url) then VStr (str_of_opt (url_username url))
       else VNone);
      ("aws_secret_access_key",
       if truthy (url_password url) then VStr (str_of_opt (url_password url))
       else VNone);
      ("region_name", VStr (Re.sub _pattern_region "1" (url_host url)));
      ("schema_name",
       VStr (if truthy (url_database url) then str_of_opt (url_database url)
             else "default")) ] in
  let opts := opts_update opts (url_query url) in
  let opts :=
    if opts_mem "verify" opts then
      let verify :=
        match opts_get "verify" opts with
        | Some (VStr s) =>
            match strtobool s with
            | Some b => VBool b
            | None => VStr s
            end
        | Some v => v
        | None => VNone
        end in
      opts_set "verify" verify opts
    else opts in
  opts <-
    (if opts_mem "duration_seconds" opts then
       s <- dict_lookup "duration_seconds" (url_query url) ;;
       match int s with
       | Some n => Ok (opts_set "duration_seconds" (VInt n) opts)
       | None => Raise ValueError
       end
     else Ok opts) ;;
  opts <-
    (if opts_mem "poll_interval" opts then
       s <- dict_lookup "poll_interval" (url_query url) ;;
       match float s with
       | Some x => Ok (opts_set "poll_interval" (VFloat x) opts)
       | None => Raise ValueError
       end
     else Ok opts) ;;
  opts <-
    (if opts_mem "kill_on_interrupt" opts then
       s <- dict_lookup "kill_on_interrupt" (url_query url) ;;
       match strtobool s with
       | Some b => Ok (opts_set "kill_on_interrupt" (VBool b) opts)
       | None => Raise ValueError
       end
     else Ok opts) ;;
  Ok opts.

(** [create_connect_args] of the dialect: no positional argument and the
    dict as keyword arguments. *)
Definition create_connect_args (url : URL) : result (list string * opts_t) :=
  opts <- _create_connect_args url ;;
  Ok ([], opts).

End ConnectArgs.

(** [distutils.util.strtobool], for examples. *)
Definition strtobool_distutils (val : string) : option bool :=
  let val := lower val in
  if existsb (String.eqb val) ["y"; "yes"; "t"; "true"; "on"; "1"]
  then Some true
  else if existsb (String.eqb val) ["n"; "no"; "f"; "false"; "off"; "0"]
  then Some false
  else None.

(** The dict of connection arguments before the coercions: the four
    arguments read from the URL, updated with the query. *)
Definition merged_opts (float_t : Type) (url : URL) : opts_t float_t :=
  opts_update float_t
    [ ("aws_access_key_id",
       if truthy (url_username url)
       then VStr float_t (str_of_opt (url_username url))
       else VNone float_t);
      ("aws_secret_access_key",
       if truthy (url_password url)
       then VStr float_t (str_of_opt (url_password url))
       else VNone float_t);
      ("region_name",
       VStr float_t (Re.sub _pattern_region "1" (url_host url)));
      ("schema_name",
       VStr float_t (if truthy (url_database url)
                     then str_of_opt (url_database url)
                     else "default")) ]
    (url_query url).

(** The names of the arguments that are coerced. *)
Definition coerced_names : list string :=
  ["verify"; "duration_seconds"; "poll_interval"; "kill_on_interrupt"].

(** [int] on a text of decimal digits with an optional sign, for
    examples. *)
Definition int_decimal (s : string) : option Z :=
  option_map Z.of_int (NilZero.int_of_string s).


(** * Vocabulary of the statements *)

Section Vocabulary.

Context {tk : Toolkit}.

(** The columns a column list with flag [partitions] shows: those whose
    partition flag is [partitions], system columns apart, in declaration
    order. *)
Definition shown_columns (partitions : bool) (columns : list Column)
  : list Column :=
  filter (fun c => Bool.eqb (column_partition c) partitions
                   && negb (column_system c)) columns.

(** The specification of a column that compiles. *)
Definition spec_text (c : Column) : string :=
  match AthenaDDLCompiler.get_column_specification c with
  | Ok s => s
  | Raise _ => ""
  end.

(** A column list as text: each item on a line of its own behind a tab,
    the first after [separator], the others after a comma. *)
Fixpoint column_lines (separator : string) (specs : list string) : string :=
  match specs with
  | [] => ""
  | spec :: specs' =>
      separator ++ TAB ++ spec ++ column_lines (", " ++ LF) specs'
  end.

Definition comment_clause (table : Table) : string :=
  if truthy (table_comment table)
  then "COMMENT "
       ++ AthenaDDLCompiler._escape_comment (str_of_opt (table_comment table))
       ++ LF
  else "".

Definition partitioned_by_clause (specs : list string) : string :=
  match specs with
  | [] => ""
  | _ => "PARTITIONED BY (" ++ column_lines LF specs ++ LF ++ ")" ++ LF
  end.

Definition row_format_clause (table : Table) : string :=
  if truthy (opt_row_format table)
  then "ROW FORMAT " ++ str_of_opt (opt_row_format table) ++ LF
  else "".

Definition tblproperties_clause (properties : dict) : string :=
  match properties with
  | [] => ""
  | _ => _format_tblproperties properties ++ LF
  end.

(** The staging directory of a connection: the [s3_dir] argument when the
    connection was given one, its [s3_staging_dir] otherwise. *)
Definition staging_directory (connection : Connection) : option string :=
  if dict_mem "s3_dir" (_kwargs connection)
  then dict_get "s3_dir" (_kwargs connection)
  else s3_staging_dir connection.

(** The schema of a table: its own, or the connection's. *)
Definition resolved_schema (table : Table) (connection : Connection) : string :=
  match table_schema table with
  | Some "" | None => schema_name connection
  | Some schema => schema
  end.

Definition ends_with_slash (s : string) : bool :=
  match last_char s with
  | Some c => Ascii.eqb c "/"
  | None => false
  end.

(** Every character of [s] is in the class [p]. *)
Fixpoint all_chars (p : ascii -> bool) (s : string) : bool :=
  match s with
  | "" => true
  | String c s' => p c && all_chars p s'
  end.

(** A parameter suffix of a catalog type string: a parenthesis or an angle
    bracket, parameters on one line, and a closing one. *)
Definition parameter_suffix (suffix : string) : Prop :=
  exists (o : ascii) (body : string) (c : ascii),
    suffix = String o (body ++ String c "")
    /\ (o = "("%char \/ o = "<"%char)
    /\ body <> "" /\ all_chars Re.dot body = true
    /\ (c = ")"%char \/ c = ">"%char).

(** The part of the data catalog pattern that reads a name: a space and a
    named group of one or more characters. *)
Definition name_part (g : string) : Re.regex :=
  Re.Cat (Re.Str " ") (Re.Group g (Re.Plus Re.dot)).

(** One entry of the TBLPROPERTIES block. *)
Definition property_text (key value : string) : string :=
  "'" ++ key ++ "'='" ++ value ++ "'".

Definition location_clause (location : string) : string :=
  "LOCATION '" ++ location ++ "'" ++ LF.

(** The table properties a table is declared with: the value of its
    [awsathena_tblproperties] option, none when it has no such option. *)
Definition declared_tblproperties (table : Table) : dict :=
  match opt_tblproperties table with
  | Some properties => properties
  | None => []
  end.

(** The property key of a storage format whose name is in lower case. *)
Definition compression_key (format key : string) : Prop :=
  (format = "textfile" /\ key = "compressionType")
  \/ (format = "parquet" /\ key = "parquet.compress")
  \/ (format = "json" /\ key = "compressionType").

(** A type that no visit method renders: TIME, a type the inherited
    compiler has no rendering for, or an ARRAY over such a type. *)
Fixpoint unrenderable (type_ : TypeEngine) : bool :=
  match type_ with
  | TIME => true
  | Unsupported _ => true
  | ARRAY item_type => unrenderable item_type
  | _ => false
  end.

(** A VARCHAR or NVARCHAR with no length. *)
Definition lengthless_varchar (type_ : TypeEngine) : bool :=
  match type_ with
  | VARCHAR length _ | NVARCHAR length _ =>
      AthenaTypeCompiler.no_length length
  | _ => false
  end.

Definition is_column (type_expression : option Column) : bool :=
  match type_expression with
  | Some _ => true
  | None => false
  end.

(** Reading a quoted SQL text from the left: a backslash takes the
    character after it along, and a quote that no backslash took along is
    bare.  [false] for a text with a bare quote or a backslash at its end. *)
Fixpoint quotes_escaped (s : string) : bool :=
  match s with
  | "" => true
  | String c s' =>
      if Ascii.eqb c BACKSLASH then
        match s' with
        | "" => false
        | String _ s'' => quotes_escaped s''
        end
      else if Ascii.eqb c "'" then false
      else quotes_escaped s'
  end.

(** The context a column error is wrapped in. *)
Definition column_error_context (table : Table) (column : Column) : string :=
  "(in table '" ++ table_name table ++ "', column '"
  ++ column_name column ++ "'): ".

(** The first character of [s] is a letter. *)
Definition starts_with_letter (s : string) : bool :=
  match s with
  | String c _ => is_alpha c
  | "" => false
  end.

(** The schema a reflection call asks the catalog about. *)
Definition queried_schema (connection : Connection) (schema : option string)
  : string :=
  match schema with
  | Some "" | None => schema_name connection
  | Some s => s
  end.

End Vocabulary.

(** * Properties *)

(** ** Strings *)

Lemma append_assoc (a b c : string) : (a ++ b) ++ c = a ++ (b ++ c).
Proof. induction a as [|x a IH]; simpl; [reflexivity | now rewrite IH]. Qed.

Lemma append_nil_r (a : string) : a ++ "" = a.
Proof. induction a as [|x a IH]; simpl; [reflexivity | now rewrite IH]. Qed.

Lemma append_length (a b : string) :
  String.length (a ++ b) = String.length a + String.length b.
Proof. induction a as [|x a IH]; simpl; [reflexivity | now rewrite IH]. Qed.

Lemma prefix_append (a b : string) : String.prefix a (a ++ b) = true.
Proof.
  induction a as [|x a IH]; simpl.
  - now destruct b.
  - destruct (ascii_dec x x) as [_|n]; [exact IH | congruence].
Qed.

Lemma prefix_split (a s : string) :
  String.prefix a s = true -> s = a ++ Re.drop (String.length a) s.
Proof.
  revert s; induction a as [|x a IH]; intros s H; simpl in *.
  - now destruct s.
  - destruct s as [|y s]; simpl in H; [discriminate|].
    revert H; destruct (ascii_dec x y) as [->|]; intros H; [|discriminate].
    simpl. f_equal. now apply IH.
Qed.

Lemma drop_append (a b : string) : Re.drop (String.length a) (a ++ b) = b.
Proof. induction a as [|x a IH]; simpl; [now destruct b | exact IH]. Qed.

Lemma substring_append (a b : string) :
  String.substring 0 (String.length a) (a ++ b) = a.
Proof.
  induction a as [|x a IH]; simpl.
  - now destruct b.
  - now rewrite IH.
Qed.

Lemma substring_whole (a : string) :
  String.substring 0 (String.length a) a = a.
Proof. induction a as [|x a IH]; simpl; [reflexivity | now rewrite IH]. Qed.

Lemma contains_prefix (a s : string) :
  String.prefix a s = true -> contains a s = true.
Proof. intros H. destruct s; cbn [contains]; now rewrite H. Qed.

(** [sub in s] holds of every text built around [sub]. *)
Lemma contains_infix (pre sub post : string) :
  contains sub (pre ++ sub ++ post) = true.
Proof.
  induction pre as [|x pre IH].
  - cbn [append]. apply contains_prefix, prefix_append.
  - cbn [append contains]. rewrite IH. apply orb_true_r.
Qed.

Lemma contains_at (pre post sub s : string) :
  s = pre ++ sub ++ post -> contains sub s = true.
Proof. intros ->. apply contains_infix. Qed.

Lemma contains_split (sub s : string) :
  contains sub s = true -> exists pre post, s = pre ++ sub ++ post.
Proof.
  induction s as [|x s IH]; cbn [contains]; intros H.
  - rewrite orb_false_r in H. apply prefix_split in H.
    now exists "", (Re.drop (String.length sub) "").
  - apply orb_true_iff in H as [H|H].
    + apply prefix_split in H.
      now exists "", (Re.drop (String.length sub) (String x s)).
    + destruct (IH H) as (pre & post & ->).
      now exists (String x pre), post.
Qed.

Create Rewrite HintDb str.
#[local] Hint Rewrite append_assoc append_nil_r : str.

Ltac str_norm :=
  unfold LF, TAB, DQ;
  repeat (progress (autorewrite with str; cbn [append])).

(** ** The column lists *)

Section ColumnLists.

Context {tk : Toolkit}.
Import AthenaDDLCompiler.

Lemma visit_create_column_shown (c : Column) (r : option string) :
  visit_create_column c = Ok r ->
  if column_system c then r = None
  else r = Some (spec_text c) /\ get_column_specification c = Ok (spec_text c).
Proof.
  unfold visit_create_column, spec_text.
  destruct (column_system c); [now intros [= <-]|].
  destruct (get_column_specification c) as [s|e]; simpl; [|discriminate].
  now intros [= <-].
Qed.

Lemma _get_columns_specs_loop_spec (description : string) (p : bool) :
  forall (columns : list Column) (text separator out : string),
    _get_columns_specs_loop description p columns text separator = Ok out ->
    out = text ++ column_lines separator
                    (List.map spec_text (shown_columns p columns))
    /\ Forall (fun c => get_column_specification c = Ok (spec_text c))
              (shown_columns p columns).
Proof.
  induction columns as [|c columns IH]; intros text separator out H.
  - simpl in *. injection H as <-. now rewrite append_nil_r.
  - cbn [_get_columns_specs_loop] in H. unfold shown_columns. cbn [filter].
    destruct (Bool.eqb (column_partition c) p); cbn [negb andb] in *.
    + destruct (visit_create_column c) as [[processed|]|e] eqn:E.
      * apply visit_create_column_shown in E.
        destruct (column_system c); [discriminate|]. destruct E as [[= ->] E].
        cbn [negb List.map column_lines].
        apply IH in H as [-> F]. split; [|now constructor].
        fold (shown_columns p columns). now str_norm.
      * apply visit_create_column_shown in E.
        destruct (column_system c); [|now destruct E].
        cbn [negb]. now apply IH.
      * now destruct e.
    + now apply IH.
Qed.

Lemma column_lines_empty (separator : string) (specs : list string) :
  String.eqb (column_lines LF specs) "" = true -> specs = [].
Proof. destruct specs; [reflexivity | discriminate]. Qed.

(** A compilation that succeeds, clause by clause. *)
Lemma post_create_table_ok (table : Table) (text : string) (table' : Table) :
  post_create_table table = Ok (text, table') ->
  exists location properties,
    Forall (fun c => get_column_specification c = Ok (spec_text c))
           (shown_columns true (table_columns table))
    /\ require_location table = Ok location
    /\ resolve_tblproperties table (resolve_stored_as table) = Ok properties
    /\ table' = (if snd (local_tblproperties table)
                 then set_tblproperties table properties else table)
    /\ text = comment_clause table
              ++ partitioned_by_clause
                   (List.map spec_text
                             (shown_columns true (table_columns table)))
              ++ row_format_clause table
              ++ "STORED AS " ++ resolve_stored_as table ++ LF
              ++ "LOCATION '" ++ location ++ "'" ++ LF
              ++ tblproperties_clause properties.
Proof.
  unfold post_create_table, _get_columns_specs.
  destruct (_get_columns_specs_loop _ _ _ _ _) as [pspecs|] eqn:P;
    [|discriminate].
  apply _get_columns_specs_loop_spec in P as [-> F]. cbn [bind].
  destruct (require_location table) as [location|]; [|discriminate].
  cbn [bind].
  destruct (resolve_tblproperties _ _) as [properties|]; [|discriminate].
  cbn [bind]. intros [= <- <-]. exists location, properties.
  repeat split; try assumption.
  unfold comment_clause, partitioned_by_clause, row_format_clause,
    tblproperties_clause, _escape_comment, _format_tblproperties.
  destruct (shown_columns true (table_columns table)) as [|c l];
    destruct (truthy (table_comment table));
    destruct (truthy (opt_row_format table));
    destruct properties;
    unfold LF, TAB;
    cbn [List.map column_lines String.eqb negb append]; str_norm;
    reflexivity.
Qed.

Lemma visit_create_table_ok (table : Table) (text : string) (table' : Table) :
  visit_create_table table = Ok (text, table') ->
  exists post,
    Forall (fun c => get_column_specification c = Ok (spec_text c))
           (shown_columns false (table_columns table))
    /\ post_create_table table = Ok (post, table')
    /\ text = LF ++ "CREATE EXTERNAL TABLE "
              ++ format_table (table_schema table) (table_name table) ++ " ("
              ++ column_lines LF
                   (List.map spec_text
                             (shown_columns false (table_columns table)))
              ++ LF ++ ")" ++ LF ++ post ++ LF ++ LF.
Proof.
  unfold visit_create_table, _get_columns_specs.
  destruct (_get_columns_specs_loop _ _ _ _ _) as [specs|] eqn:P;
    [|discriminate].
  apply _get_columns_specs_loop_spec in P as [-> F]. cbn [bind].
  destruct (post_create_table table) as [[post t']|]; [|discriminate].
  cbn [bind fst snd]. intros [= <- <-]. exists post.
  repeat split; try assumption. unfold LF. str_norm. reflexivity.
Qed.

Lemma compile_ok (table : Table) (sql : string) (table' : Table) :
  compile table = (Ok sql, table') ->
  visit_create_table table = Ok (sql, table').
Proof.
  unfold compile. destruct (visit_create_table table) as [[text t]|e].
  - now intros [= <- <-].
  - discriminate.
Qed.

Lemma shown_columns_flag (p : bool) (columns : list Column) (c : Column) :
  In c (shown_columns p columns) -> column_partition c = p.
Proof.
  unfold shown_columns. rewrite filter_In. intros [_ H].
  apply andb_true_iff in H as [H _]. now apply eqb_prop.
Qed.

(** C1: a compilation that succeeds puts the columns whose partition flag
    is unset into the parenthesized column list and the columns whose flag
    is set into the PARTITIONED BY clause, each group in declaration order
    (the order [filter] keeps), and no column is in both groups. *)
Theorem columns_split_by_partition_flag
    (table : Table) (sql : string) (table' : Table) :
  compile table = (Ok sql, table') ->
  let regular := shown_columns false (table_columns table) in
  let partition := shown_columns true (table_columns table) in
  Forall (fun c => get_column_specification c = Ok (spec_text c))
         (regular ++ partition)
  /\ (forall c, In c regular -> column_partition c = false /\ ~ In c partition)
  /\ (forall c, In c partition -> column_partition c = true /\ ~ In c regular)
  /\ exists rest,
       String.prefix "ROW FORMAT " rest || String.prefix "STORED AS " rest = true
       /\ sql = LF ++ "CREATE EXTERNAL TABLE "
              ++ format_table (table_schema table) (table_name table) ++ " ("
                ++ column_lines LF (List.map spec_text regular)
                ++ LF ++ ")" ++ LF
                ++ comment_clause table
                ++ partitioned_by_clause (List.map spec_text partition)
                ++ rest.
Proof.
  intros H regular partition. apply compile_ok in H.
  apply visit_create_table_ok in H as (post & Freg & Hpost & ->).
  apply post_create_table_ok in Hpost
    as (location & properties & Fpart & _ & _ & _ & ->).
  split; [apply Forall_app; now split|].
  split; [|split].
  - intros c Hc. pose proof (shown_columns_flag _ _ _ Hc) as E.
    split; [exact E|]. intros Hp. apply shown_columns_flag in Hp. congruence.
  - intros c Hc. pose proof (shown_columns_flag _ _ _ Hc) as E.
    split; [exact E|]. intros Hp. apply shown_columns_flag in Hp. congruence.
  - exists (row_format_clause table
            ++ "STORED AS " ++ resolve_stored_as table ++ LF
            ++ "LOCATION '" ++ location ++ "'" ++ LF
            ++ tblproperties_clause properties ++ LF ++ LF).
    split.
    + unfold row_format_clause. destruct (truthy (opt_row_format table)).
      * apply orb_true_iff; left. rewrite !append_assoc.
        exact (prefix_append "ROW FORMAT " _).
      * apply orb_true_iff; right. exact (prefix_append "STORED AS " _).
    + fold regular partition. now str_norm.
Qed.

End ColumnLists.

Lemma columns_split_by_partition_flag_witness :
  @AthenaDDLCompiler.compile plain_toolkit events = (Ok events_sql, events)
  /\ Forall (fun c => @AthenaDDLCompiler.get_column_specification plain_toolkit c
                      = Ok (@spec_text plain_toolkit c))
            (shown_columns false (table_columns events)
             ++ shown_columns true (table_columns events)).
Proof.
  split; [reflexivity|].
  exact (proj1 (@columns_split_by_partition_flag
                  plain_toolkit events events_sql events eq_refl)).
Defined.

(** ** The type compiler *)

Section TypeCompilerProperties.

Context {tk : Toolkit}.
Import AthenaTypeCompiler.

(** The type compiler raises nothing but [CompileError]. *)
Lemma process_raises_CompileError (type_ : TypeEngine) :
  forall (type_expression : option Column) (e : exn),
    process type_ type_expression = Raise e -> exists msg, e = CompileError msg.
Proof.
  induction type_
    as [| | | | | | | | | | | | | | l c | l c | | | | | | item IH | |];
    intros te e; cbn [process]; try discriminate.
  - destruct precision, scale; discriminate.
  - destruct precision, scale; discriminate.
  - destruct te; discriminate.
  - intros [= <-]. eauto.
  - unfold visit_VARCHAR. destruct te; [|discriminate].
    destruct (no_length l); [|discriminate]. intros [= <-]. eauto.
  - unfold visit_NVARCHAR. destruct te; [|discriminate].
    destruct (no_length l); [|discriminate]. intros [= <-]. eauto.
  - destruct (process item None) as [s|e'] eqn:E; cbn [bind]; [discriminate|].
    intros [= <-]. eapply IH. exact E.
  - intros [= <-]. eauto.
Qed.

Lemma missing_length_message_mentions (name : string) :
  contains name (missing_length_message name) = true
  /\ contains "Text" (missing_length_message name) = true
  /\ contains "STRING" (missing_length_message name) = true.
Proof.
  unfold missing_length_message. repeat split.
  - exact (contains_infix ("Column " ++ DQ) name _).
  - apply (contains_at
                  ("Column " ++ DQ ++ name ++ DQ ++ " is of type " ++ DQ
                   ++ "String" ++ DQ ++ " but has no length. "
                   ++ "Athena does not support " ++ DQ ++ "String" ++ DQ
                   ++ " (SQL type VARCHAR) without length. "
                   ++ "You must either provide one or use the type " ++ DQ)
                  (DQ ++ " (SQL type STRING)")).
    now str_norm.
  - apply (contains_at
                  ("Column " ++ DQ ++ name ++ DQ ++ " is of type " ++ DQ
                   ++ "String" ++ DQ ++ " but has no length. "
                   ++ "Athena does not support " ++ DQ ++ "String" ++ DQ
                   ++ " (SQL type VARCHAR) without length. "
                   ++ "You must either provide one or use the type " ++ DQ
                   ++ "Text" ++ DQ ++ " (SQL type ")
                  ")").
    now str_norm.
Qed.

End TypeCompilerProperties.

(** ** Columns that do not compile *)

Section ColumnErrors.

Context {tk : Toolkit}.
Import AthenaTypeCompiler AthenaDDLCompiler.

Lemma get_column_specification_raises (c : Column) (e : exn) :
  get_column_specification c = Raise e ->
  process (column_type c) (Some c) = Raise e.
Proof.
  unfold get_column_specification.
  now destruct (process (column_type c) (Some c)); cbn [bind].
Qed.

(** The loop stops with a [CompileError] as soon as one of the columns it
    shows does not compile. *)
Lemma _get_columns_specs_loop_raises (description : string) (p : bool)
    (c : Column) (e : exn) :
  column_partition c = p -> column_system c = false ->
  get_column_specification c = Raise e ->
  forall (columns : list Column) (text separator : string),
    In c columns ->
    exists msg,
      _get_columns_specs_loop description p columns text separator
      = Raise (CompileError msg).
Proof.
  intros Hp Hs He. induction columns as [|c0 columns IH];
    intros text separator Hin; [contradiction|].
  cbn [_get_columns_specs_loop].
  destruct (Bool.eqb (column_partition c0) p) eqn:Eq; cbn [negb].
  - destruct (visit_create_column c0) as [[processed|]|e0] eqn:V.
    + destruct Hin as [->|Hin]; [|now apply IH].
      unfold visit_create_column in V. rewrite Hs, He in V. discriminate.
    + destruct Hin as [->|Hin]; [|now apply IH].
      unfold visit_create_column in V. rewrite Hs, He in V. discriminate.
    + unfold visit_create_column in V.
      destruct (column_system c0); [discriminate|].
      destruct (get_column_specification c0) as [s|e1] eqn:G;
        cbn [bind] in V; [discriminate|].
      injection V as ->. apply get_column_specification_raises in G.
      apply process_raises_CompileError in G as [msg ->]. eauto.
  - destruct Hin as [->|Hin]; [|now apply IH].
    rewrite Hp, eqb_reflx in Eq. discriminate.
Qed.

Lemma _get_columns_specs_raises_CompileError (table : Table) (p : bool)
    (e : exn) :
  _get_columns_specs table p = Raise e -> exists msg, e = CompileError msg.
Proof.
  unfold _get_columns_specs. generalize "" at 1. generalize LF.
  induction (table_columns table) as [|c0 l IH]; intros sep text;
    cbn [_get_columns_specs_loop]; [discriminate|].
  destruct (negb _); [apply IH|].
  destruct (visit_create_column c0) as [[processed|]|e1] eqn:V;
    [apply IH | apply IH |].
  unfold visit_create_column in V.
  destruct (column_system c0); [discriminate|].
  destruct (get_column_specification c0) as [s|e2] eqn:G;
    cbn [bind] in V; [discriminate|].
  injection V as ->. apply get_column_specification_raises in G.
  apply process_raises_CompileError in G as [msg ->].
  intros [= <-]. eauto.
Qed.

(** A table with a column that does not compile does not compile. *)
Lemma compile_raises_on_column (table : Table) (c : Column) (e : exn) :
  In c (table_columns table) -> column_system c = false ->
  get_column_specification c = Raise e ->
  exists msg, fst (compile table) = Raise (CompileError msg).
Proof.
  intros Hin Hs He. unfold compile, visit_create_table, _get_columns_specs.
  destruct (column_partition c) eqn:Hp.
  - destruct (_get_columns_specs_loop (table_name table) false _ _ _)
      as [specs|e0] eqn:L; cbn [bind].
    + unfold post_create_table, _get_columns_specs.
      destruct (_get_columns_specs_loop_raises (table_name table) true c e
                  Hp Hs He (table_columns table) "" LF Hin) as [msg ->].
      cbn [bind fst]. eauto.
    + cbn [fst].
      apply (_get_columns_specs_raises_CompileError table false) in L
        as [msg ->].
      eauto.
  - destruct (_get_columns_specs_loop_raises (table_name table) false c e
                Hp Hs He (table_columns table) "" LF Hin) as [msg ->].
    cbn [bind fst]. eauto.
Qed.

(** C2, amended: a VARCHAR (or NVARCHAR) type compiled for a column with no
    length (unset, or zero) raises a CompileError whose message mentions the
    column name and names the type Text, SQL type STRING, as the
    alternative, and the table of such a column does not compile; CHAR and
    NCHAR are not checked: with or without a length they are rendered by
    the toolkit and raise nothing. *)
Theorem varchar_without_length_is_rejected
    (column : Column) (length : option Z) (collation : option string) :
  column_type column = VARCHAR length collation
  \/ column_type column = NVARCHAR length collation ->
  no_length length = true ->
  (exists msg,
      process (column_type column) (Some column) = Raise (CompileError msg)
      /\ contains (column_name column) msg = true
      /\ contains "Text" msg = true
      /\ contains "STRING" msg = true)
  /\ (forall table,
        In column (table_columns table) -> column_system column = false ->
        exists msg, fst (compile table) = Raise (CompileError msg))
  /\ (forall length collation type_expression,
        process (CHAR length collation) type_expression
        = Ok (_render_string_type length collation "CHAR")
        /\ process (NCHAR length collation) type_expression
           = Ok (_render_string_type length collation "CHAR")).
Proof.
  intros Ht Hl.
  assert (process (column_type column) (Some column)
          = Raise (CompileError (missing_length_message (column_name column))))
    as E.
  { destruct Ht as [-> | ->]; cbn [process];
      unfold visit_VARCHAR, visit_NVARCHAR; now rewrite Hl. }
  split; [|split].
  - exists (missing_length_message (column_name column)).
    split; [exact E | apply missing_length_message_mentions].
  - intros table Hin Hs.
    apply (compile_raises_on_column table column
             (CompileError (missing_length_message (column_name column))));
      try assumption.
    unfold get_column_specification. now rewrite E.
  - intros l c te. split; reflexivity.
Qed.

End ColumnErrors.

Lemma varchar_without_length_is_rejected_witness :
  let column := mkColumn "title" (VARCHAR None None) None false false in
  exists msg,
    @AthenaTypeCompiler.process plain_toolkit (column_type column) (Some column)
    = Raise (CompileError msg)
    /\ contains (column_name column) msg = true
    /\ contains "Text" msg = true
    /\ contains "STRING" msg = true.
Proof.
  intros column.
  apply (@varchar_without_length_is_rejected plain_toolkit column None None).
  - left. reflexivity.
  - reflexivity.
Defined.

(** C2 as stated fails for CHAR: a CHAR column with no length compiles, at
    the level of the type and at the level of the table. *)
Lemma char_without_length_compiles :
  @AthenaTypeCompiler.process plain_toolkit
    (CHAR None None) (Some (mkColumn "code" (CHAR None None) None false false))
  = Ok "CHAR"
  /\ fst (@AthenaDDLCompiler.compile plain_toolkit codes) = Ok codes_sql.
Proof. split; reflexivity. Qed.

(** ** The location *)

Section Location.

Context {tk : Toolkit}.
Import AthenaDDLCompiler.

Lemma slash_suffix (location : string) :
  match last_char location with
  | Some "/"%char => ""
  | _ => "/"
  end = if ends_with_slash location then "" else "/".
Proof.
  unfold ends_with_slash. destruct (last_char location) as [c|]; [|reflexivity].
  destruct (Ascii.eqb_spec c "/") as [->|N]; [reflexivity|].
  destruct c as [[] [] [] [] [] [] [] []]; try reflexivity. now elim N.
Qed.

Lemma truthy_nonempty (s : string) : s <> "" -> truthy (Some s) = true.
Proof. destruct s; [now intros []|reflexivity]. Qed.

Lemma truthy_path (a b c : string) :
  truthy (Some (a ++ b ++ "/" ++ c)) = true.
Proof. destruct a; [destruct b|]; reflexivity. Qed.

Lemma resolved_schema_spec (table : Table) (connection : Connection) :
  (if truthy (table_schema table) then str_of_opt (table_schema table)
   else schema_name connection) = resolved_schema table connection.
Proof. unfold resolved_schema. now destruct (table_schema table) as [[|]|]. Qed.

Lemma explicit_location (table : Table) (location : string) :
  opt_location table = Some location -> location <> "" ->
  require_location table
  = Ok (if ends_with_slash location then location else location ++ "/").
Proof.
  intros E N. unfold require_location, resolve_location. rewrite E.
  rewrite (truthy_nonempty _ N). cbn [str_of_opt]. rewrite slash_suffix.
  destruct (ends_with_slash location).
  - rewrite append_nil_r, (truthy_nonempty _ N). reflexivity.
  - replace (truthy (Some (location ++ "/"))) with true; [reflexivity|].
    now destruct location.
Qed.

Lemma derived_location (table : Table) (connection : Connection)
    (base : string) :
  truthy (opt_location table) = false ->
  table_bind table = Some connection ->
  staging_directory connection = Some base ->
  require_location table
  = Ok (base ++ resolved_schema table connection ++ "/"
        ++ table_name table ++ "/").
Proof.
  intros L B S. unfold require_location, resolve_location.
  rewrite L, B. fold (staging_directory connection).
  rewrite S, resolved_schema_spec. cbn [str_of_opt].
  now rewrite truthy_path.
Qed.

Lemma no_location (table : Table) :
  truthy (opt_location table) = false ->
  table_bind table = None ->
  require_location table
  = Raise (CompileError
             ("You need to specify the storage location for the table "
              ++ "using the `awsathena_location` dialect keyword argument")).
Proof.
  intros L B. unfold require_location, resolve_location. now rewrite L, B.
Qed.

(** C3, amended: the location is (a) the table's own location option when
    it is set and not empty, with a slash appended unless it ends in one;
    else (b) for a table bound to a connection that has a staging
    directory, that directory, the resolved schema, a slash, the table name
    and a slash; else (c) for a table that is not bound, the compilation
    raises a CompileError, which names the [awsathena_location] option when
    the columns compile.  A compilation that succeeds renders the resolved
    location in its LOCATION clause. *)
Theorem location_precedence (table : Table) :
  (forall location,
      opt_location table = Some location -> location <> "" ->
      require_location table
      = Ok (if ends_with_slash location then location else location ++ "/"))
  /\ (forall connection base,
        truthy (opt_location table) = false ->
        table_bind table = Some connection ->
        staging_directory connection = Some base ->
        require_location table
        = Ok (base ++ resolved_schema table connection ++ "/"
              ++ table_name table ++ "/"))
  /\ (truthy (opt_location table) = false ->
      table_bind table = None ->
      exists msg,
        fst (compile table) = Raise (CompileError msg)
        /\ (forall regular partition,
              _get_columns_specs table false = Ok regular ->
              _get_columns_specs table true = Ok partition ->
              msg = "You need to specify the storage location for the table "
                    ++ "using the `awsathena_location` dialect keyword argument"
              /\ contains "awsathena_location" msg = true))
  /\ (forall sql table',
        compile table = (Ok sql, table') ->
        exists location before after,
          require_location table = Ok location
          /\ sql = before ++ location_clause location ++ after).
Proof.
  split; [exact (explicit_location table)|].
  split; [exact (derived_location table)|].
  split.
  - intros L B. pose proof (no_location table L B) as E.
    unfold compile, visit_create_table.
    destruct (_get_columns_specs table false) as [regular|e] eqn:R;
      cbn [bind].
    + unfold post_create_table.
      destruct (_get_columns_specs table true) as [partition|e] eqn:P;
        cbn [bind].
      * rewrite E. cbn [bind fst]. eexists. split; [reflexivity|].
        intros _ _ _ _. split; reflexivity.
      * apply _get_columns_specs_raises_CompileError in P as [msg ->].
        exists msg. split; [reflexivity | discriminate].
    + apply _get_columns_specs_raises_CompileError in R as [msg ->].
      exists msg. split; [reflexivity | discriminate].
  - intros sql table' H. apply compile_ok in H.
    apply visit_create_table_ok in H as (post & _ & Hpost & ->).
    apply post_create_table_ok in Hpost
      as (location & properties & _ & Hloc & _ & _ & ->).
    exists location.
    exists (LF ++ "CREATE EXTERNAL TABLE "
              ++ format_table (table_schema table) (table_name table) ++ " ("
            ++ column_lines LF
                 (List.map spec_text
                           (shown_columns false (table_columns table)))
            ++ LF ++ ")" ++ LF
            ++ comment_clause table
            ++ partitioned_by_clause
                 (List.map spec_text
                           (shown_columns true (table_columns table)))
            ++ row_format_clause table
            ++ "STORED AS " ++ resolve_stored_as table ++ LF).
    exists (tblproperties_clause properties ++ LF ++ LF).
    split; [exact Hloc|]. unfold location_clause. now str_norm.
Qed.

End Location.

Lemma location_precedence_witness :
  opt_location events = Some "s3://b/events/"
  /\ @AthenaDDLCompiler.require_location events = Ok "s3://b/events/".
Proof.
  split; [reflexivity|].
  apply (proj1 (@location_precedence plain_toolkit events) "s3://b/events/").
  - reflexivity.
  - discriminate.
Defined.

(** C3 as stated fails in its last case: the error of a table with no
    location and no connection names the table-level option and not the
    staging directory of a connection. *)
Lemma missing_location_names_one_remedy :
  exists msg,
    fst (@AthenaDDLCompiler.compile plain_toolkit orphan)
    = Raise (CompileError msg)
    /\ contains "awsathena_location" msg = true
    /\ contains "s3_staging_dir" msg = false
    /\ contains "s3_dir" msg = false.
Proof. eexists. repeat split; vm_compute; reflexivity. Qed.

(** A table bound to a connection that has no staging directory compiles,
    to a location that starts with the text of [None]. *)
Example location_from_connection_without_staging_dir :
  @AthenaDDLCompiler.require_location adrift = Ok "Nonedefault/adrift/".
Proof. reflexivity. Qed.

(** ** Compression *)

Lemma dict_get_set (k v : string) (d : dict) :
  dict_get k (dict_set k v d) = Some v.
Proof.
  induction d as [|[k' v'] d IH]; cbn [dict_set dict_get].
  - now rewrite String.eqb_refl.
  - destruct (String.eqb k' k) eqn:E; cbn [dict_get].
    + now rewrite String.eqb_refl.
    + now rewrite E.
Qed.

Lemma dict_set_In (k v : string) (d : dict) : In (k, v) (dict_set k v d).
Proof.
  induction d as [|[k' v'] d IH]; cbn [dict_set].
  - now left.
  - destruct (String.eqb k' k); [now left | now right].
Qed.

Lemma dict_set_idempotent (k v : string) (d : dict) :
  dict_set k v (dict_set k v d) = dict_set k v d.
Proof.
  induction d as [|[k' v'] d IH]; cbn [dict_set].
  - now rewrite String.eqb_refl.
  - destruct (String.eqb k' k) eqn:E; cbn [dict_set].
    + now rewrite String.eqb_refl.
    + now rewrite E, IH.
Qed.

Lemma dict_set_nonempty (k v : string) (d : dict) : dict_set k v d <> [].
Proof. destruct d as [|[k' v'] d]; cbn; [|destruct (String.eqb k' k)]; discriminate. Qed.

Lemma join_In (sep x : string) (l : list string) :
  In x l -> exists before after, join sep l = before ++ x ++ after.
Proof.
  unfold join. induction l as [|y l IH]; [contradiction|].
  intros [->|H].
  - destruct l as [|z l]; cbn [String.concat].
    + exists "", "". now rewrite append_nil_r.
    + now exists "", (sep ++ String.concat sep (z :: l)).
  - destruct (IH H) as (before & after & E).
    destruct l as [|z l]; [contradiction|].
    cbn [String.concat] in *. rewrite E.
    exists (y ++ sep ++ before), after. now rewrite !append_assoc.
Qed.

Lemma _format_tblproperties_In (k v : string) (properties : dict) :
  In (k, v) properties ->
  contains (property_text k v) (_format_tblproperties properties) = true.
Proof.
  intros H. unfold _format_tblproperties.
  destruct (join_In ("," ++ LF ++ "    ") (property_text k v)
                    (List.map (fun kv => "'" ++ fst kv ++ "'='" ++ snd kv ++ "'")
                              properties))
    as (before & after & E).
  { apply (in_map (fun kv => "'" ++ fst kv ++ "'='" ++ snd kv ++ "'")) in H.
    exact H. }
  rewrite E.
  apply (contains_at (("TBLPROPERTIES (" ++ LF ++ "    ") ++ before)
                     (after ++ LF ++ ")")).
  now rewrite !append_assoc.
Qed.

Lemma COMPRESSION_TBLPROPERTY_KEY_entries (format key : string) :
  dict_get format COMPRESSION_TBLPROPERTY_KEY = Some key ->
  (format = "textfile" /\ key = "compressionType")
  \/ (format = "parquet" /\ key = "parquet.compress")
  \/ (format = "json" /\ key = "compressionType").
Proof.
  unfold COMPRESSION_TBLPROPERTY_KEY. cbn [dict_get].
  destruct (String.eqb_spec "textfile" format) as [<-|_];
    [intros [= <-]; auto|].
  destruct (String.eqb_spec "parquet" format) as [<-|_];
    [intros [= <-]; auto|].
  destruct (String.eqb_spec "json" format) as [<-|_];
    [intros [= <-]; auto 6|discriminate].
Qed.

Section Compression.

Context {tk : Toolkit}.
Import AthenaDDLCompiler.

Lemma local_tblproperties_declared (table : Table) :
  fst (local_tblproperties table) = declared_tblproperties table.
Proof.
  unfold local_tblproperties, declared_tblproperties.
  now destruct (opt_tblproperties table) as [[|kv d]|].
Qed.

(** A compilation that succeeds with a compression codec found a key for
    the lowercased storage format, and its statement ends with the table's
    own properties to which the key was set to the uppercased codec. *)
Lemma compression_rendered
    (table : Table) (sql : string) (table' : Table) (codec : string) :
  compile table = (Ok sql, table') ->
  resolve_compression table = Some codec -> codec <> "" ->
  exists key before,
    dict_get (lower (resolve_stored_as table)) COMPRESSION_TBLPROPERTY_KEY
    = Some key
    /\ sql = before
             ++ _format_tblproperties
                  (dict_set key (upper codec) (declared_tblproperties table))
             ++ LF ++ LF ++ LF.
Proof.
  intros H C N.
  apply compile_ok in H.
  apply visit_create_table_ok in H as (post & _ & Hpost & ->).
  apply post_create_table_ok in Hpost
    as (location & properties & _ & _ & Hprops & _ & ->).
  unfold resolve_tblproperties in Hprops.
  rewrite C, (truthy_nonempty _ N) in Hprops. unfold dict_lookup in Hprops.
  destruct (dict_get (lower (resolve_stored_as table))
                     COMPRESSION_TBLPROPERTY_KEY) as [key|] eqn:K;
    cbn [bind str_of_opt] in Hprops; [|discriminate].
  injection Hprops as <-.
  rewrite local_tblproperties_declared.
  exists key. eexists. split; [reflexivity|].
  unfold tblproperties_clause.
  destruct (dict_set key (upper codec) (declared_tblproperties table))
    eqn:D; [now apply dict_set_nonempty in D|].
  rewrite <- D.
  instantiate (1 := LF ++ "CREATE EXTERNAL TABLE "
                    ++ format_table (table_schema table) (table_name table)
                    ++ " ("
                    ++ column_lines LF
                         (List.map spec_text
                            (shown_columns false (table_columns table)))
                    ++ LF ++ ")" ++ LF
                    ++ comment_clause table
                    ++ partitioned_by_clause
                         (List.map spec_text
                            (shown_columns true (table_columns table)))
                    ++ row_format_clause table
                    ++ "STORED AS " ++ resolve_stored_as table ++ LF
                    ++ "LOCATION '" ++ location ++ "'" ++ LF).
  generalize (_format_tblproperties
                (dict_set key (upper codec) (declared_tblproperties table))).
  intros formatted. now str_norm.
Qed.

(** The codec a table names wins over the one of its connection, which is
    read when the table names none. *)
Lemma resolve_compression_source (table : Table) (codec : string) :
  codec <> "" ->
  opt_compression table = Some codec
  \/ (truthy (opt_compression table) = false
      /\ exists connection,
           table_bind table = Some connection
           /\ dict_get "compression" (_kwargs connection) = Some codec) ->
  resolve_compression table = Some codec.
Proof.
  intros N [E | (F & connection & B & G)]; unfold resolve_compression.
  - now rewrite E, (truthy_nonempty _ N).
  - now rewrite F, B.
Qed.

End Compression.

(** ** What a compilation leaves behind *)

Section Frame.

Context {tk : Toolkit}.
Import AthenaDDLCompiler.

Lemma set_tblproperties_same (table : Table) (d : dict) :
  opt_tblproperties table = Some d -> set_tblproperties table d = table.
Proof. destruct table. cbn. now intros ->. Qed.

Lemma local_tblproperties_aliased (table : Table) :
  snd (local_tblproperties table) = true ->
  opt_tblproperties table = Some (fst (local_tblproperties table))
  /\ fst (local_tblproperties table) <> [].
Proof.
  unfold local_tblproperties.
  destruct (opt_tblproperties table) as [[|kv d]|]; cbn; try discriminate.
  intros _. split; [reflexivity | discriminate].
Qed.

Lemma local_tblproperties_set (table : Table) (d : dict) :
  d <> [] -> local_tblproperties (set_tblproperties table d) = (d, true).
Proof. destruct d; [now intros []|reflexivity]. Qed.

(** The mapping a successful compilation renders is not empty when the
    local name is an alias, and computing it again from it changes
    nothing. *)
Lemma resolve_tblproperties_again
    (table : Table) (stored_as : string) (properties : dict) :
  snd (local_tblproperties table) = true ->
  resolve_tblproperties table stored_as = Ok properties ->
  properties <> []
  /\ resolve_tblproperties (set_tblproperties table properties) stored_as
     = Ok properties.
Proof.
  intros A R. apply local_tblproperties_aliased in A as [_ N].
  unfold resolve_tblproperties in *.
  change (resolve_compression (set_tblproperties table properties))
    with (resolve_compression table).
  destruct (truthy (resolve_compression table)).
  - destruct (dict_lookup (lower stored_as) COMPRESSION_TBLPROPERTY_KEY)
      as [key|]; cbn [bind] in *; [|discriminate].
    injection R as <-. split; [apply dict_set_nonempty|].
    rewrite local_tblproperties_set by apply dict_set_nonempty.
    cbn [fst]. now rewrite dict_set_idempotent.
  - injection R as <-. split; [exact N|].
    now rewrite local_tblproperties_set.
Qed.

Lemma visit_create_table_again (table : Table) (sql : string) (table1 : Table) :
  visit_create_table table = Ok (sql, table1) ->
  visit_create_table table1 = Ok (sql, table1).
Proof.
  intros V. unfold visit_create_table, post_create_table in V.
  destruct (_get_columns_specs table false) as [specs|] eqn:S;
    cbn [bind] in V; [|discriminate].
  destruct (_get_columns_specs table true) as [pspecs|] eqn:P;
    cbn [bind] in V; [|discriminate].
  destruct (require_location table) as [location|] eqn:L;
    cbn [bind] in V; [|discriminate].
  destruct (resolve_tblproperties table (resolve_stored_as table))
    as [properties|] eqn:R; cbn [bind fst snd] in V; [|discriminate].
  destruct (snd (local_tblproperties table)) eqn:A.
  - injection V as <- <-.
    destruct (resolve_tblproperties_again _ _ _ A R) as [N R1].
    unfold visit_create_table, post_create_table.
    change (_get_columns_specs (set_tblproperties table properties))
      with (_get_columns_specs table).
    change (require_location (set_tblproperties table properties))
      with (require_location table).
    change (resolve_stored_as (set_tblproperties table properties))
      with (resolve_stored_as table).
    rewrite S, P, L, R1. cbn [bind fst snd].
    rewrite local_tblproperties_set by exact N. reflexivity.
  - injection V as <- <-.
    unfold visit_create_table, post_create_table.
    rewrite S, P, L, R. cbn [bind fst snd]. now rewrite A.
Qed.

(** C8: compiling a table a second time, in the state the first
    compilation left it in, gives the result of the first compilation, the
    same text or the same exception, and leaves the table as it is. *)
Theorem compile_twice (table : Table) :
  fst (compile (snd (compile table))) = fst (compile table)
  /\ snd (compile (snd (compile table))) = snd (compile table).
Proof.
  unfold compile.
  destruct (visit_create_table table) as [[sql table1]|e] eqn:V;
    cbn [fst snd].
  - rewrite (visit_create_table_again _ _ _ V). split; reflexivity.
  - rewrite V. split; reflexivity.
Qed.

(** What a compilation can change: nothing but the table properties, and
    those only when the table has some and a codec is resolved. *)
Lemma compile_frame (table : Table) :
  let table' := snd (compile table) in
  (table_name table' = table_name table
   /\ table_schema table' = table_schema table
   /\ table_columns table' = table_columns table
   /\ table_comment table' = table_comment table
   /\ table_bind table' = table_bind table
   /\ opt_compression table' = opt_compression table
   /\ opt_location table' = opt_location table
   /\ opt_row_format table' = opt_row_format table
   /\ opt_stored_as table' = opt_stored_as table)
  /\ (snd (local_tblproperties table) = false
      \/ truthy (resolve_compression table) = false ->
      table' = table).
Proof.
  cbv zeta. unfold compile.
  destruct (visit_create_table table) as [[sql table1]|e] eqn:V;
    cbn [snd]; [|now intuition].
  apply visit_create_table_ok in V as (post & _ & Hpost & _).
  apply post_create_table_ok in Hpost
    as (location & properties & _ & _ & R & -> & _).
  split.
  - destruct (snd (local_tblproperties table)); now repeat split.
  - destruct (snd (local_tblproperties table)) eqn:A; [|reflexivity].
    intros [|C]; [discriminate|].
    unfold resolve_tblproperties in R. rewrite C in R. injection R as <-.
    apply set_tblproperties_same. now apply local_tblproperties_aliased.
Qed.

End Frame.

(** C5: a compressed table stored as ORC stops the compilation with the
    [KeyError] of the failed lookup, whose only content is the lowercased
    format name, and not with a [CompileError]. *)
Example unknown_format_raises_KeyError :
  fst (@AthenaDDLCompiler.compile plain_toolkit clicks) = Raise (KeyError "orc").
Proof. reflexivity. Qed.

(** C6: compiling a compressed table that has table properties of its own
    adds the compression key to the table's own mapping. *)
Example compile_writes_tblproperties :
  opt_tblproperties tagged = Some [("owner", "etl")]
  /\ opt_tblproperties (snd (@AthenaDDLCompiler.compile plain_toolkit tagged))
     = Some [("owner", "etl"); ("parquet.compress", "SNAPPY")].
Proof. split; reflexivity. Qed.

(** ** The matcher *)

Section Matcher.

Import Re.
Context {R : Type}.

(** When [p+] can take all of [s1], no more than [s1], and the continuation
    accepts what follows, that is the match. *)
Lemma plus_take (p : ascii -> bool) (k : nat -> string -> option R) (x : R) :
  forall (s1 s2 : string) (pos : nat),
    s1 <> "" -> all_chars p s1 = true ->
    plus p (pos + String.length s1) s2 k = None ->
    k (pos + String.length s1) s2 = Some x ->
    plus p pos (s1 ++ s2) k = Some x.
Proof.
  induction s1 as [|c s1 IH]; intros s2 pos N A M K; [now elim N|].
  cbn [all_chars] in A. apply andb_true_iff in A as [Pc A].
  cbn [append plus String.length] in *. rewrite Pc.
  rewrite Nat.add_succ_r in M, K.
  destruct s1 as [|c' s1].
  - cbn [append String.length] in *. rewrite Nat.add_0_r in M, K.
    now rewrite M, K.
  - rewrite (IH s2 (S pos)); [reflexivity|discriminate|exact A|exact M|exact K].
Qed.

(** A match of [p+] takes a non-empty run of characters of the class. *)
Lemma plus_inv (p : ascii -> bool) (k : nat -> string -> option R) (x : R) :
  forall (s : string) (pos : nat),
    plus p pos s k = Some x ->
    exists s1 s2,
      s = s1 ++ s2 /\ s1 <> "" /\ all_chars p s1 = true
      /\ k (pos + String.length s1) s2 = Some x.
Proof.
  induction s as [|c s IH]; intros pos H; cbn [plus] in H; [discriminate|].
  destruct (p c) eqn:Pc; [|discriminate].
  destruct (plus p (S pos) s k) as [y|] eqn:E.
  - injection H as ->. destruct (IH _ E) as (s1 & s2 & -> & N & A & K).
    exists (String c s1), s2. cbn [append all_chars String.length].
    rewrite Pc, Nat.add_succ_r. repeat split; [discriminate|exact A|exact K].
  - exists (String c ""), s. cbn [append all_chars String.length].
    rewrite Pc, Nat.add_succ_r, Nat.add_0_r.
    repeat split; [discriminate|exact H].
Qed.

End Matcher.

Lemma search_from_inv (r : Re.regex) (caps : Re.captures) :
  forall (rest : string) (pos : nat),
    Re.search_from r pos rest = Some caps ->
    exists before rest' e,
      rest = before ++ rest'
      /\ Re.match_at r (pos + String.length before) rest' = Some (e, caps).
Proof.
  induction rest as [|c rest IH]; intros pos H; cbn [Re.search_from] in H.
  - destruct (Re.match_at r pos "") as [[e caps']|] eqn:M; [|discriminate].
    injection H as ->. exists "", "", e. cbn. now rewrite Nat.add_0_r.
  - destruct (Re.match_at r pos (String c rest)) as [[e caps']|] eqn:M.
    + injection H as ->. exists "", (String c rest), e. cbn.
      now rewrite Nat.add_0_r.
    + destruct (IH _ H) as (before & rest' & e & -> & M').
      exists (String c before), rest', e. cbn [append String.length].
      now rewrite Nat.add_succ_r.
Qed.

(** ** The column type pattern *)

Section ColumnType.

Import Re AthenaDialect.

Lemma plus_take_at {R : Type} (p : ascii -> bool)
    (k : nat -> string -> option R) (x : R) (s s1 s2 : string) (pos : nat) :
  s = s1 ++ s2 -> s1 <> "" -> all_chars p s1 = true ->
  plus p (pos + String.length s1) s2 k = None ->
  k (pos + String.length s1) s2 = Some x ->
  plus p pos s k = Some x.
Proof. intros ->. apply plus_take. Qed.

(** Anchored at the start, the pattern matches nowhere else. *)
Lemma match_at_after_start (pos : nat) (rest : string) :
  match_at _pattern_column_type (S pos) rest = None.
Proof. reflexivity. Qed.

Lemma sub_from_skip_all (rest : string) :
  forall pos,
    sub_from _pattern_column_type "1" (S pos) rest (String.length rest) = "".
Proof.
  induction rest as [|c rest IH]; intros pos; cbn [sub_from String.length].
  - now rewrite match_at_after_start.
  - apply IH.
Qed.

(** A match that starts at offset 0 and spans the text is replaced by its
    first group. *)
Lemma sub_whole_match (text : string) (caps : captures) (base : string) :
  text <> "" ->
  match_at _pattern_column_type 0 text = Some (String.length text, caps) ->
  group "1" caps = Some base ->
  _get_column_type text = base.
Proof.
  intros N M G. unfold _get_column_type, sub.
  destruct text as [|c rest]; [now elim N|].
  cbn [sub_from]. rewrite M, G. cbn [String.length Nat.eqb].
  rewrite Nat.sub_0_r. cbn [Nat.sub]. rewrite Nat.sub_0_r.
  now rewrite sub_from_skip_all, append_nil_r.
Qed.

Lemma match_at_keyword (base : string) :
  base <> "" -> all_chars is_alpha base = true ->
  match_at _pattern_column_type 0 base
  = Some (String.length base, [("2", ""); ("1", base)]).
Proof.
  intros N A. unfold match_at, _pattern_column_type. cbn [run Nat.eqb].
  apply (plus_take_at _ _ _ base base ""); try assumption.
  - now rewrite append_nil_r.
  - reflexivity.
  - cbn [Nat.add String.eqb orb]. rewrite Nat.sub_0_r, Nat.sub_diag.
    now rewrite substring_whole.
Qed.

Lemma match_at_parametrized (base body : string) (o c : ascii) :
  base <> "" -> all_chars is_alpha base = true ->
  o = "("%char \/ o = "<"%char ->
  body <> "" -> all_chars dot body = true ->
  c = ")"%char \/ c = ">"%char ->
  exists e caps,
    match_at _pattern_column_type 0 (base ++ String o (body ++ String c ""))
    = Some (e, caps)
    /\ e = String.length (base ++ String o (body ++ String c ""))
    /\ group "1" caps = Some base.
Proof.
  intros Nb Ab Ho Nd Ad Hc. unfold match_at, _pattern_column_type.
  cbn [run Nat.eqb]. do 2 eexists. split; [|split].
  - apply (plus_take_at _ _ _ _ base (String o (body ++ String c "")));
      [reflexivity|exact Nb|exact Ab| |].
    + destruct Ho as [-> | ->]; reflexivity.
    + assert (String.eqb (String o (body ++ String c "")) ""
              || String.eqb (String o (body ++ String c "")) LF = false) as ->
        by (destruct Ho as [-> | ->]; reflexivity).
      assert (one_of "(<" o = true) as ->
        by (destruct Ho as [-> | ->]; reflexivity).
      apply (plus_take_at _ _ _ _ body (String c ""));
        [reflexivity|exact Nd|exact Ad| |].
      * destruct Hc as [-> | ->]; reflexivity.
      * assert (one_of ")>" c = true) as ->
          by (destruct Hc as [-> | ->]; reflexivity).
        cbn [String.eqb orb]. reflexivity.
  - rewrite !append_length. cbn [String.length]. rewrite append_length.
    cbn [String.length]. lia.
  - cbn [group String.eqb Ascii.eqb Bool.eqb]. rewrite Nat.sub_0_r.
    cbn [Nat.add]. now rewrite substring_append.
Qed.

(** The base keyword of a catalog type string. *)
Lemma _get_column_type_keyword (base : string) :
  base <> "" -> all_chars is_alpha base = true ->
  _get_column_type base = base.
Proof.
  intros N A.
  apply (sub_whole_match base [("2", ""); ("1", base)]);
    [exact N | now apply match_at_keyword | reflexivity].
Qed.

Lemma _get_column_type_parametrized (base body : string) (o c : ascii) :
  base <> "" -> all_chars is_alpha base = true ->
  o = "("%char \/ o = "<"%char ->
  body <> "" -> all_chars dot body = true ->
  c = ")"%char \/ c = ">"%char ->
  _get_column_type (base ++ String o (body ++ String c "")) = base.
Proof.
  intros Nb Ab Ho Nd Ad Hc.
  destruct (match_at_parametrized base body o c Nb Ab Ho Nd Ad Hc)
    as (e & caps & M & -> & G).
  apply (sub_whole_match _ caps); [|exact M|exact G].
  destruct base; [now elim Nb|discriminate].
Qed.

End ColumnType.

(** ** The data catalog pattern *)

Section CatalogPattern.

Import Re AthenaDialect.

Lemma search_from_hit (r : regex) (pos : nat) (rest : string) (e : nat)
    (caps : captures) :
  match_at r pos rest = Some (e, caps) -> search_from r pos rest = Some caps.
Proof. intros H. destruct rest; cbn [search_from]; now rewrite H. Qed.

(** Inside the closing text [p+] finds no place to stop. *)
Lemma not_found_tail_only {R : Type} (pos : nat)
    (k : nat -> string -> option R) :
  (forall pos' rest',
      String.prefix " not found." rest' = false -> k pos' rest' = None) ->
  plus dot pos " not found." k = None.
Proof.
  intros K. cbn [plus].
  repeat match goal with
         | |- context [dot ?c] => change (dot c) with true; cbv iota
         end.
  rewrite !K by reflexivity. reflexivity.
Qed.

Lemma name_part_take {R : Type} (g n : string) (pos : nat) (caps : captures)
    (k : nat -> string -> captures -> option R) (x : R) :
  n <> "" -> all_chars dot n = true ->
  (forall pos' rest' caps',
      String.prefix " not found." rest' = false -> k pos' rest' caps' = None) ->
  k (pos + 1 + String.length n) " not found." ((g, n) :: caps) = Some x ->
  run (name_part g) pos (" " ++ n ++ " not found.") caps k = Some x.
Proof.
  intros N A K H. unfold name_part. cbn [run].
  rewrite prefix_append, drop_append. cbn [String.length].
  apply (plus_take_at _ _ _ _ n " not found."); [reflexivity|exact N|exact A| |].
  - apply not_found_tail_only. intros pos' rest' P. now apply K.
  - rewrite Nat.add_comm, Nat.add_sub, substring_append.
    now rewrite Nat.add_comm.
Qed.

Lemma name_part_inv {R : Type} (g : string) (pos : nat) (rest : string)
    (caps : captures) (k : nat -> string -> captures -> option R) (x : R) :
  run (name_part g) pos rest caps k = Some x ->
  exists n rest',
    rest = " " ++ n ++ rest' /\ n <> "" /\ all_chars dot n = true
    /\ k (pos + 1 + String.length n) rest' ((g, n) :: caps) = Some x.
Proof.
  unfold name_part. cbn [run]. destruct (String.prefix " " rest) eqn:P;
    [|discriminate].
  apply prefix_split in P. intros H.
  apply plus_inv in H as (n & rest' & E & N & A & H).
  cbn [String.length] in *. rewrite E in H, P.
  exists n, rest'. repeat split; try assumption.
  rewrite Nat.add_comm, Nat.add_sub, substring_append in H.
  now rewrite Nat.add_comm in H.
Qed.

Lemma pattern_shape :
  _pattern_data_catlog_exception
  = Cat (Group "1"
           (Alt (Group "2"
                   (Cat (Group "3" (Alt (Str "Database") (Str "Namespace")))
                        (name_part "schema")))
                (Group "5" (Cat (Str "Table") (name_part "table")))))
        (Str " not found.").
Proof. reflexivity. Qed.

Ltac take_name N A :=
  erewrite name_part_take;
  [ reflexivity | exact N | exact A
  | intros ? ? ? P; cbv beta; cbn [run]; now rewrite P
  | reflexivity ].

(** The pattern on a message that is one of its three sentences. *)
Lemma match_at_sentence (kw n : string) :
  kw = "Database" \/ kw = "Namespace" \/ kw = "Table" ->
  n <> "" -> all_chars dot n = true ->
  exists e caps,
    match_at _pattern_data_catlog_exception 0 (kw ++ " " ++ n ++ " not found.")
    = Some (e, caps)
    /\ group "schema" caps = (if String.eqb kw "Table" then None else Some n)
    /\ group "table" caps = (if String.eqb kw "Table" then Some n else None).
Proof.
  intros [-> | [-> | ->]] N A; rewrite pattern_shape; unfold match_at;
    cbn [run]; do 2 eexists.
  - split; [|split].
    + rewrite (prefix_append "Database"), drop_append. take_name N A.
    + reflexivity.
    + reflexivity.
  - split; [|split].
    + assert (String.prefix "Database" ("Namespace" ++ " " ++ n ++ " not found.")
              = false) as -> by reflexivity.
      rewrite (prefix_append "Namespace"), drop_append. take_name N A.
    + reflexivity.
    + reflexivity.
  - split; [|split].
    + assert (String.prefix "Database" ("Table" ++ " " ++ n ++ " not found.")
              = false) as -> by reflexivity.
      assert (String.prefix "Namespace" ("Table" ++ " " ++ n ++ " not found.")
              = false) as -> by reflexivity.
      rewrite (prefix_append "Table"), drop_append. take_name N A.
    + reflexivity.
    + reflexivity.
Qed.


(** One keyword, a name and the closing text, read backwards from a
    match. *)
Lemma sentence_inv (kw g : string) (pos : nat) (rest : string)
    (caps0 : captures) (F : nat -> captures -> nat * captures)
    (x : nat * captures) :
  (if String.prefix kw rest
   then run (name_part g) (pos + String.length kw)
            (drop (String.length kw) rest) caps0
            (fun pos' rest' caps' =>
               if String.prefix " not found." rest'
               then Some (F pos' caps') else None)
   else None) = Some x ->
  exists n rest',
    rest = kw ++ " " ++ n ++ " not found." ++ rest'
    /\ n <> "" /\ all_chars dot n = true
    /\ x = F (pos + String.length kw + 1 + String.length n) ((g, n) :: caps0).
Proof.
  destruct (String.prefix kw rest) eqn:P; [|discriminate].
  apply prefix_split in P. intros H.
  apply name_part_inv in H as (n & rest' & E & N & A & H).
  destruct (String.prefix " not found." rest') eqn:P'; [|discriminate].
  apply prefix_split in P'. injection H as <-.
  exists n, (drop (String.length " not found.") rest').
  repeat split; try assumption.
  rewrite P at 1. rewrite E. rewrite P' at 1. reflexivity.
Qed.

(** Whatever the pattern matches is one of its three sentences, and the
    named groups hold the name. *)
Lemma match_at_inv (pos : nat) (rest : string) (e : nat) (caps : captures) :
  match_at _pattern_data_catlog_exception pos rest = Some (e, caps) ->
  exists kw n rest',
    rest = kw ++ " " ++ n ++ " not found." ++ rest'
    /\ n <> "" /\ all_chars dot n = true
    /\ (kw = "Database" \/ kw = "Namespace" \/ kw = "Table")
    /\ group "schema" caps = (if String.eqb kw "Table" then None else Some n)
    /\ group "table" caps = (if String.eqb kw "Table" then Some n else None).
Proof.
  rewrite pattern_shape. unfold match_at. cbn [run]. intros H.
  match type of H with
  | match match ?a with _ => _ end with _ => _ end = _ =>
      destruct a as [x|] eqn:Ea
  end.
  - injection H as ->.
    apply sentence_inv in Ea as (n & rest' & -> & N & A & [= -> ->]).
    exists "Database", n, rest'. repeat split; auto.
  - match type of H with
    | match ?b with _ => _ end = _ => destruct b as [x|] eqn:Eb
    end.
    + injection H as ->.
      apply sentence_inv in Eb as (n & rest' & -> & N & A & [= -> ->]).
      exists "Namespace", n, rest'. repeat split; auto.
    + apply sentence_inv in H as (n & rest' & -> & N & A & [= -> ->]).
      exists "Table", n, rest'. repeat split; auto.
Qed.

Lemma option_eqb_true (x : option string) (s : string) :
  option_eqb x s = true <-> x = Some s.
Proof.
  destruct x as [v|]; cbn; [|split; discriminate].
  rewrite String.eqb_eq. split; [now intros -> | now intros [= ->]].
Qed.

(** C9: for an OperationalError with text [text], the helper answers
    "not found" (it returns False) exactly when the pattern is found in the
    text and the schema it captured is the queried schema or the table it
    captured is the queried table; then the text holds one of the sentences
    "Database s not found.", "Namespace s not found." or
    "Table t not found." for the queried schema [s] or table [t]; and on a
    text that is one such sentence the answer is "not found" exactly when
    the name in it is the queried one, so the sentence about another schema
    or table is not classified as not found. *)
Theorem not_found_classification (text schema table_name : string) :
  (_retry_if_data_catalog_exception true text schema table_name = false
   <-> exists caps,
        search _pattern_data_catlog_exception text = Some caps
        /\ (group "schema" caps = Some schema
            \/ group "table" caps = Some table_name))
  /\ (_retry_if_data_catalog_exception true text schema table_name = false ->
      exists before kw name after,
        text = before ++ kw ++ " " ++ name ++ " not found." ++ after
        /\ (((kw = "Database" \/ kw = "Namespace") /\ name = schema)
            \/ (kw = "Table" /\ name = table_name)))
  /\ (forall kw name,
        kw = "Database" \/ kw = "Namespace" \/ kw = "Table" ->
        name <> "" -> all_chars dot name = true ->
        text = kw ++ " " ++ name ++ " not found." ->
        _retry_if_data_catalog_exception true text schema table_name
        = negb (if String.eqb kw "Table" then String.eqb name table_name
                else String.eqb name schema)).
Proof.
  assert (_retry_if_data_catalog_exception true text schema table_name = false
          <-> exists caps,
               search _pattern_data_catlog_exception text = Some caps
               /\ (group "schema" caps = Some schema
                   \/ group "table" caps = Some table_name)) as Exact.
  { unfold _retry_if_data_catalog_exception. cbn [negb].
    destruct (search _pattern_data_catlog_exception text) as [caps|].
    - destruct (option_eqb (group "schema" caps) schema
                || option_eqb (group "table" caps) table_name) eqn:E.
      + split; [intros _|reflexivity]. exists caps. split; [reflexivity|].
        apply orb_true_iff in E. now rewrite !option_eqb_true in E.
      + split; [discriminate|]. intros (caps' & [= <-] & G).
        rewrite <- !option_eqb_true, <- orb_true_iff in G. congruence.
    - split; [discriminate|]. now intros (caps' & [=] & _). }
  split; [exact Exact|]. split.
  - intros H. apply Exact in H as (caps & S & G).
    apply search_from_inv in S as (before & rest & e & -> & M).
    apply match_at_inv in M as (kw & n & after & -> & _ & _ & K & Gs & Gt).
    exists before, kw, n, after. split; [reflexivity|].
    destruct K as [-> | [-> | ->]]; cbn in Gs, Gt; rewrite Gs, Gt in G;
      destruct G as [[= ->]|[= ->]]; auto.
  - intros kw name K N A ->.
    destruct (match_at_sentence kw name K N A) as (e & caps & M & Gs & Gt).
    apply search_from_hit in M.
    unfold _retry_if_data_catalog_exception, search. rewrite M, Gs, Gt.
    cbn [negb]. destruct K as [-> | [-> | ->]]; cbn [String.eqb Ascii.eqb Bool.eqb option_eqb orb];
      try rewrite orb_false_r; now destruct (String.eqb name _).
Qed.

End CatalogPattern.

Lemma not_found_classification_witness :
  all_chars Re.dot "mytable" = true
  /\ AthenaDialect._retry_if_data_catalog_exception
       true "Table mytable not found." "default" "mytable" = false
  /\ AthenaDialect._retry_if_data_catalog_exception
       true "Table mytable not found." "default" "other" = true.
Proof.
  split; [reflexivity|]. split.
  - apply (proj2 (proj2 (not_found_classification
                           "Table mytable not found." "default" "mytable"))
                 "Table" "mytable"); try reflexivity; auto; discriminate.
  - apply (proj2 (proj2 (not_found_classification
                           "Table mytable not found." "default" "other"))
                 "Table" "mytable"); try reflexivity; auto; discriminate.
Defined.

(** ** Reflection *)

Section ReflectionProperties.

Import AthenaDialect.

Lemma mapping_get_default (k : string) (default : sqltypes.t) :
  forall d : list (string * sqltypes.t),
    (forall v, ~ In (k, v) d) -> mapping_get k d default = default.
Proof.
  induction d as [|[k' v'] d IH]; intros H; cbn [mapping_get]; [reflexivity|].
  destruct (String.eqb_spec k' k) as [->|_].
  - elim (H v'). now left.
  - apply IH. intros v Hv. apply (H v). now right.
Qed.

Lemma _TYPE_MAPPINGS_get (k : string) (v default : sqltypes.t) :
  In (k, v) _TYPE_MAPPINGS -> mapping_get k _TYPE_MAPPINGS default = v.
Proof.
  unfold _TYPE_MAPPINGS. cbn [In]. intros H.
  repeat (destruct H as [[= <- <-]|H]; [reflexivity|]). contradiction.
Qed.

(** C7: a catalog type string made of a keyword of letters, alone or
    followed by a parameter suffix in parentheses or angle brackets, is
    reduced to the keyword; the reflected type is the entry of the keyword
    in the mapping table, and the null type, not an error, for a keyword
    that has no entry.  decimal(10,2) is reflected as DECIMAL, array<int>
    as the string type and geometry as the null type. *)
Theorem reflected_type
    (partition : bool) (column : ColumnMetadata) (base suffix : string) :
  meta_type column = base ++ suffix ->
  base <> "" -> all_chars is_alpha base = true ->
  suffix = "" \/ parameter_suffix suffix ->
  _get_column_type (meta_type column) = base
  /\ spec_type (column_spec partition column)
     = mapping_get base _TYPE_MAPPINGS sqltypes.NULLTYPE
  /\ (forall v, In (base, v) _TYPE_MAPPINGS ->
                spec_type (column_spec partition column) = v)
  /\ ((forall v, ~ In (base, v) _TYPE_MAPPINGS) ->
      spec_type (column_spec partition column) = sqltypes.NULLTYPE)
  /\ spec_type (column_spec partition
                            (mkColumnMetadata "price" "decimal(10,2)" None))
     = sqltypes.DECIMAL
  /\ spec_type (column_spec partition
                            (mkColumnMetadata "tags" "array<int>" None))
     = sqltypes.STRINGTYPE
  /\ spec_type (column_spec partition
                            (mkColumnMetadata "shape" "geometry" None))
     = sqltypes.NULLTYPE.
Proof.
  intros E N A S.
  assert (_get_column_type (meta_type column) = base) as B.
  { rewrite E. destruct S as [-> | (o & body & c & -> & Ho & Nb & Ab & Hc)].
    - rewrite append_nil_r. now apply _get_column_type_keyword.
    - now apply _get_column_type_parametrized. }
  split; [exact B|]. unfold column_spec at 1 2 3. cbn [spec_type]. rewrite B.
  split; [reflexivity|]. split; [|split].
  - intros v. apply _TYPE_MAPPINGS_get.
  - apply mapping_get_default.
  - repeat split; reflexivity.
Qed.

End ReflectionProperties.

Lemma reflected_type_witness :
  (all_chars is_alpha "decimal" = true /\ parameter_suffix "(10,2)")
  /\ AthenaDialect._get_column_type "decimal(10,2)" = "decimal".
Proof.
  assert (parameter_suffix "(10,2)") as P.
  { exists "("%char, "10,2", ")"%char.
    repeat split; try reflexivity; auto; discriminate. }
  split; [split; [reflexivity | exact P]|].
  apply (reflected_type false (mkColumnMetadata "price" "decimal(10,2)" None)
                        "decimal" "(10,2)").
  - reflexivity.
  - discriminate.
  - reflexivity.
  - right. exact P.
Defined.

(** ** The existence check *)

Section Existence.

Import AthenaDialect.

Variable raw_connection : Connection.
Variable _get_table_metadata : string -> string -> result TableMetadata.

Lemma fold_left_append {A B : Type} (f : A -> B) (l : list A) :
  forall acc : list B,
    fold_left (fun acc x => (acc ++ [f x])%list) l acc
    = (acc ++ List.map f l)%list.
Proof.
  induction l as [|x l IH]; intros acc; cbn [fold_left List.map].
  - now rewrite app_nil_r.
  - now rewrite IH, <- app_assoc.
Qed.

Lemma get_columns_spec (table_name : string) (schema : option string) :
  get_columns raw_connection _get_table_metadata table_name schema
  = metadata <- _get_table raw_connection _get_table_metadata table_name schema ;;
    Ok (List.map (column_spec false) (meta_columns metadata)
        ++ List.map (column_spec true) (meta_partition_keys metadata))%list.
Proof.
  unfold get_columns.
  destruct (_get_table _ _ _ _) as [metadata|e]; cbn [bind]; [|reflexivity].
  now rewrite !fold_left_append.
Qed.

(** C10: the existence check answers False for a table that is not found
    and for a table whose reflection succeeds with no column and no
    partition key; it answers True only when reflection returns at least
    one column; any other exception of the reflection is raised again. *)
Theorem has_table_needs_a_column (table_name : string) (schema : option string) :
  let reflected :=
    get_columns raw_connection _get_table_metadata table_name schema in
  let answer := has_table raw_connection _get_table_metadata table_name schema in
  (forall name, reflected = Raise (NoSuchTableError name) -> answer = Ok false)
  /\ (forall metadata,
        _get_table raw_connection _get_table_metadata table_name schema
        = Ok metadata ->
        meta_columns metadata = [] -> meta_partition_keys metadata = [] ->
        reflected = Ok [] /\ answer = Ok false)
  /\ (answer = Ok true <-> exists c columns, reflected = Ok (c :: columns))
  /\ (answer = Ok false
      <-> reflected = Ok []
          \/ exists name, reflected = Raise (NoSuchTableError name))
  /\ (forall e, answer = Raise e <->
                reflected = Raise e /\ forall name, e <> NoSuchTableError name).
Proof.
  intros reflected answer. subst answer. unfold has_table. fold reflected.
  split; [now intros name ->|]. split.
  - intros metadata G C P. subst reflected. rewrite get_columns_spec, G.
    cbn [bind]. rewrite C, P. split; reflexivity.
  - destruct reflected as [[|c columns]|e].
    + split; [split; [discriminate | now intros (c & columns & [=])]|].
      split; [split; [now left | reflexivity]|].
      intros e. split; [discriminate | now intros [[=] _]].
    + split; [split; [eauto | reflexivity]|].
      split; [split; [discriminate | now intros [[=]|(name & [=])]]|].
      intros e. split; [discriminate | now intros [[=] _]].
    + split; [split; [now destruct e | now intros (c & columns & [=])]|].
      split.
      * split; [|now intros [[=]|(name & [= ->])]].
        destruct e; try discriminate. eauto.
      * intros e'. split.
        -- destruct e; try discriminate;
             (intros [= <-]; split; [reflexivity | discriminate]).
        -- intros [[= <-] D]. destruct e; try reflexivity.
           now elim (D table_name0).
Qed.

End Existence.

Lemma has_table_needs_a_column_witness :
  let empty_table := fun _ _ : string => Ok (mkTableMetadata [] [] None) in
  AthenaDialect.has_table workgroup_connection empty_table "hollow" None
  = Ok false.
Proof.
  intros empty_table.
  apply (proj1 (proj2 (has_table_needs_a_column
                         workgroup_connection empty_table "hollow" None))
               (mkTableMetadata [] [] None));
    reflexivity.
Defined.

(** ** Sample renderings *)

Example decimal_renderings :
  @AthenaTypeCompiler.process plain_toolkit (DECIMAL None None) None
  = Ok "DECIMAL"
  /\ @AthenaTypeCompiler.process plain_toolkit (DECIMAL (Some 10%Z) None) None
     = Ok "DECIMAL(10)"
  /\ @AthenaTypeCompiler.process plain_toolkit
       (DECIMAL (Some 10%Z) (Some 2%Z)) None
     = Ok "DECIMAL(10, 2)".
Proof. repeat split; reflexivity. Qed.

Example array_item_is_not_a_column :
  @AthenaTypeCompiler.process plain_toolkit (ARRAY INTEGER)
    (Some (mkColumn "ids" (ARRAY INTEGER) None false false))
  = Ok "ARRAY<INTEGER>".
Proof. reflexivity. Qed.

Example realistic_not_found_message :
  AthenaDialect._retry_if_data_catalog_exception true
    "(pyathena.error.OperationalError) Table mytable not found. (Service: null)"
    "default" "mytable" = false.
Proof. reflexivity. Qed.

(** * Further properties of the compilers *)

Section TypeCompilerCases.

Context {tk : Toolkit}.
Import AthenaTypeCompiler.

Lemma process_ARRAY_context (item_type : TypeEngine) (te : option Column) :
  process (ARRAY item_type) te = process (ARRAY item_type) None.
Proof. reflexivity. Qed.

Lemma process_without_column (type_ : TypeEngine) :
  (exists s, process type_ None = Ok s) <-> unrenderable type_ = false.
Proof.
  induction type_; cbn [process unrenderable];
    try (split; [reflexivity | intros _; eexists; reflexivity]).
  - destruct precision, scale; split; try reflexivity; intros _; eexists;
      reflexivity.
  - destruct precision, scale; split; try reflexivity; intros _; eexists;
      reflexivity.
  - split; [now intros [s [=]] | discriminate].
  - destruct (process type_ None) as [s|e]; cbn [bind].
    + split; [intros _; apply IHtype_; eauto | intros _; eauto].
    + split; [now intros [s [=]]|]. intros H. apply IHtype_ in H as [s [=]].
  - split; [now intros [s [=]] | discriminate].
Qed.

(** X1: the type compiler accepts a type exactly when it is not TIME, nor
    a type that the inherited compiler rejects (NullType), nor an ARRAY
    over such a type, nor a VARCHAR or NVARCHAR with no length compiled for
    a column; the item type of an ARRAY is compiled outside the column
    context, so a VARCHAR with no length is accepted as an item. *)
Theorem process_accepts_iff (type_ : TypeEngine) (te : option Column) :
  (exists s, process type_ te = Ok s)
  <-> unrenderable type_ || (lengthless_varchar type_ && is_column te) = false.
Proof.
  destruct type_;
    try (cbn; split; [reflexivity | intros _; eexists; reflexivity]).
  - cbn. destruct precision, scale; split; try reflexivity; intros _; eexists;
      reflexivity.
  - cbn. destruct precision, scale; split; try reflexivity; intros _; eexists;
      reflexivity.
  - cbn. destruct te; split; try reflexivity; intros _; eexists; reflexivity.
  - cbn. split; [now intros [s [=]] | discriminate].
  - cbn [process unrenderable lengthless_varchar orb]. unfold visit_VARCHAR.
    destruct te as [c|]; cbn [is_column]; [|rewrite andb_false_r;
      split; [reflexivity | intros _; eexists; reflexivity]].
    rewrite andb_true_r. destruct (no_length length).
    + split; [now intros [s [=]] | discriminate].
    + split; [reflexivity | intros _; eexists; reflexivity].
  - cbn [process unrenderable lengthless_varchar orb]. unfold visit_NVARCHAR.
    destruct te as [c|]; cbn [is_column]; [|rewrite andb_false_r;
      split; [reflexivity | intros _; eexists; reflexivity]].
    rewrite andb_true_r. destruct (no_length length).
    + split; [now intros [s [=]] | discriminate].
    + split; [reflexivity | intros _; eexists; reflexivity].
  - rewrite process_ARRAY_context. cbn [lengthless_varchar andb].
    rewrite orb_false_r. apply (process_without_column (ARRAY type_)).
  - cbn. split; [now intros [s [=]] | discriminate].
Qed.

End TypeCompilerCases.

(** ** Comments *)

Lemma append_cancel_r (a b c : string) : a ++ c = b ++ c -> a = b.
Proof.
  revert b; induction a as [|x a IH]; intros [|y b] H; cbn [append] in H.
  - reflexivity.
  - apply (f_equal String.length) in H. cbn [String.length] in H.
    rewrite append_length in H. lia.
  - apply (f_equal String.length) in H. cbn [String.length] in H.
    rewrite append_length in H. lia.
  - injection H as -> H. f_equal. now apply IH.
Qed.

Lemma replace_doubling_injective (old : ascii) (a b : string) :
  replace old (String old (String old "")) a
  = replace old (String old (String old "")) b ->
  a = b.
Proof.
  revert b; induction a as [|x a IH]; intros [|y b]; cbn [replace append].
  - reflexivity.
  - destruct (Ascii.eqb y old); discriminate.
  - destruct (Ascii.eqb x old); discriminate.
  - destruct (Ascii.eqb_spec x old) as [->|Nx];
      destruct (Ascii.eqb_spec y old) as [->|Ny]; intros H.
    + injection H as H. f_equal. now apply IH.
    + injection H as E _. now elim Ny.
    + injection H as E _. now elim Nx.
    + injection H as -> H. f_equal. now apply IH.
Qed.

Lemma replace_quote_head (s x : string) :
  replace "'" "\'" s <> String "'" x.
Proof.
  destruct s as [|c s]; cbn [replace append]; [discriminate|].
  destruct (Ascii.eqb_spec c "'") as [->|N]; [discriminate|].
  intros [= E _]. now elim N.
Qed.

Lemma replace_quote_injective (a b : string) :
  replace "'" "\'" a = replace "'" "\'" b -> a = b.
Proof.
  revert b; induction a as [|x a IH]; intros [|y b]; cbn [replace append].
  - reflexivity.
  - destruct (Ascii.eqb y "'"); discriminate.
  - destruct (Ascii.eqb x "'"); discriminate.
  - destruct (Ascii.eqb_spec x "'") as [->|Nx];
      destruct (Ascii.eqb_spec y "'") as [->|Ny]; intros H.
    + injection H as H. f_equal. now apply IH.
    + injection H as _ H. symmetry in H. now apply replace_quote_head in H.
    + injection H as _ H. now apply replace_quote_head in H.
    + injection H as -> H. f_equal. now apply IH.
Qed.

Section Comments.

Context {tk : Toolkit}.
Import AthenaDDLCompiler.

(** X2: escaping keeps comments apart: two comments with the same escaped
    text are the same comment. *)
Theorem escape_comment_injective (a b : string) :
  _escape_comment a = _escape_comment b -> a = b.
Proof.
  unfold _escape_comment. cbn [append]. intros [= H].
  apply append_cancel_r in H.
  assert (replace "'" "\'" (replace BACKSLASH "\\" a)
          = replace "'" "\'" (replace BACKSLASH "\\" b)) as Q.
  { destruct _double_percents; [|exact H].
    now apply (replace_doubling_injective "%"). }
  apply replace_quote_injective in Q.
  now apply (replace_doubling_injective BACKSLASH).
Qed.

Lemma escaped_quotes (value : string) :
  quotes_escaped (replace "'" "\'" (replace BACKSLASH "\\" value)) = true
  /\ quotes_escaped
       (replace "%" "%%" (replace "'" "\'" (replace BACKSLASH "\\" value)))
     = true.
Proof.
  induction value as [|c value [IH1 IH2]]; [split; reflexivity|].
  cbn [replace]. destruct (Ascii.eqb_spec c BACKSLASH) as [->|NB].
  - split; exact IH1 || exact IH2.
  - cbn [replace]. destruct (Ascii.eqb_spec c "'") as [->|NQ].
    + split; exact IH1 || exact IH2.
    + cbn [replace append quotes_escaped].
      apply Ascii.eqb_neq in NB, NQ. rewrite NB, NQ. split; [exact IH1|].
      destruct (Ascii.eqb_spec c "%") as [->|NP].
      * exact IH2.
      * cbn [quotes_escaped]. now rewrite NB, NQ.
Qed.

(** X3: an escaped comment is a quoted text whose inside has no bare
    quote and no backslash left alone at its end, with or without the
    doubling of percent signs: the comment cannot close the literal. *)
Theorem escape_comment_closes_once (value : string) :
  exists inside,
    _escape_comment value = "'" ++ inside ++ "'"
    /\ quotes_escaped inside = true.
Proof.
  unfold _escape_comment. destruct (escaped_quotes value) as [Q P].
  destruct _double_percents; eexists; split; try reflexivity; assumption.
Qed.

End Comments.

Lemma escape_comment_injective_witness :
  @AthenaDDLCompiler._escape_comment plain_toolkit "it's 100%"
  = "'it\'s 100%%'"
  /\ "it's 100%" = "it's 100%".
Proof.
  split; [reflexivity|].
  apply (@escape_comment_injective plain_toolkit). reflexivity.
Defined.

(** ** The ways a compilation ends *)

Section Outcomes.

Context {tk : Toolkit}.
Import AthenaDDLCompiler.

Lemma _get_columns_specs_loop_raise (description : string) (p : bool) :
  forall (columns : list Column) (text separator : string) (e : exn),
    _get_columns_specs_loop description p columns text separator = Raise e ->
    exists before c after inner,
      shown_columns p columns = (before ++ c :: after)%list
      /\ Forall (fun c => get_column_specification c = Ok (spec_text c)) before
      /\ get_column_specification c = Raise (CompileError inner)
      /\ e = CompileError ("(in table '" ++ description ++ "', column '"
                           ++ column_name c ++ "'): " ++ inner).
Proof.
  induction columns as [|c0 columns IH]; intros text separator e H;
    [discriminate|].
  cbn [_get_columns_specs_loop] in H. unfold shown_columns. cbn [filter].
  fold (shown_columns p columns).
  destruct (Bool.eqb (column_partition c0) p); cbn [negb andb] in *;
    [|now apply IH in H].
  destruct (visit_create_column c0) as [[processed|]|e0] eqn:V.
  - apply visit_create_column_shown in V.
    destruct (column_system c0); [discriminate|]. destruct V as [_ V].
    cbn [negb]. apply IH in H as (before & c & after & inner & E & F & R & ->).
    exists (c0 :: before), c, after, inner. rewrite E.
    repeat split; [now constructor | exact R].
  - apply visit_create_column_shown in V.
    destruct (column_system c0); [|now destruct V]. cbn [negb].
    now apply IH in H.
  - unfold visit_create_column in V.
    destruct (column_system c0); [discriminate|]. cbn [negb].
    destruct (get_column_specification c0) as [s|e1] eqn:G;
      cbn [bind] in V; [discriminate|]. injection V as ->.
    pose proof G as G'. apply get_column_specification_raises in G'.
    apply process_raises_CompileError in G' as [inner ->]. injection H as <-.
    exists [], c0, (shown_columns p columns), inner.
    repeat split; [constructor | exact G].
Qed.

Lemma _get_columns_specs_loop_total (description : string) (p : bool) :
  forall (columns : list Column) (text separator : string),
    Forall (fun c => get_column_specification c = Ok (spec_text c))
           (shown_columns p columns) ->
    exists out,
      _get_columns_specs_loop description p columns text separator = Ok out.
Proof.
  induction columns as [|c0 columns IH]; intros text separator F;
    cbn [_get_columns_specs_loop]; [eauto|].
  unfold shown_columns in F. cbn [filter] in F.
  fold (shown_columns p columns) in F.
  destruct (Bool.eqb (column_partition c0) p); cbn [negb andb] in *;
    [|now apply IH].
  unfold visit_create_column.
  destruct (column_system c0); cbn [negb] in F; [now apply IH|].
  inversion F as [|? ? G F']; subst. rewrite G. cbn [bind]. now apply IH.
Qed.

(** X4: a compilation that raises does so in one of three ways, tried in
    this order: the first column that does not compile, in the order
    regular columns then partition columns, gives a CompileError that puts
    the table and the column name before the message of the type compiler;
    when every column compiles, the error of the missing location; when the
    location is resolved too, the KeyError of a storage format with no
    compression key. *)
Theorem compile_failure_cases (table : Table) (e : exn) :
  fst (compile table) = Raise e ->
  let columns := (shown_columns false (table_columns table)
                  ++ shown_columns true (table_columns table))%list in
  (exists before c after inner,
      columns = (before ++ c :: after)%list
      /\ Forall (fun c => get_column_specification c = Ok (spec_text c)) before
      /\ get_column_specification c = Raise (CompileError inner)
      /\ e = CompileError (column_error_context table c ++ inner))
  \/ (Forall (fun c => get_column_specification c = Ok (spec_text c)) columns
      /\ require_location table = Raise e
      /\ exists msg, e = CompileError msg)
  \/ (Forall (fun c => get_column_specification c = Ok (spec_text c)) columns
      /\ (exists location, require_location table = Ok location)
      /\ truthy (resolve_compression table) = true
      /\ dict_get (lower (resolve_stored_as table)) COMPRESSION_TBLPROPERTY_KEY
         = None
      /\ e = KeyError (lower (resolve_stored_as table))).
Proof.
  intros H columns. subst columns. unfold compile in H.
  destruct (visit_create_table table) as [[sql t]|e'] eqn:V; [discriminate|].
  cbn [fst] in H. injection H as ->.
  unfold visit_create_table, _get_columns_specs in V.
  destruct (_get_columns_specs_loop (table_name table) false _ _ _)
    as [specs|e1] eqn:L1; cbn [bind] in V.
  - apply _get_columns_specs_loop_spec in L1 as [_ F1].
    unfold post_create_table, _get_columns_specs in V.
    destruct (_get_columns_specs_loop (table_name table) true _ _ _)
      as [pspecs|e2] eqn:L2; cbn [bind] in V.
    + apply _get_columns_specs_loop_spec in L2 as [_ F2].
      assert (Forall (fun c => get_column_specification c = Ok (spec_text c))
                     (shown_columns false (table_columns table)
                      ++ shown_columns true (table_columns table))) as F
        by (apply Forall_app; now split).
      destruct (require_location table) as [location|e3] eqn:R;
        cbn [bind] in V.
      * right; right. unfold resolve_tblproperties in V.
        destruct (truthy (resolve_compression table)); [|discriminate].
        unfold dict_lookup in V.
        destruct (dict_get (lower (resolve_stored_as table))
                           COMPRESSION_TBLPROPERTY_KEY); [discriminate|].
        cbn [bind] in V. injection V as <-. repeat split; eauto.
      * right; left. injection V as ->. repeat split; try assumption.
        unfold require_location in R.
        destruct (negb _); [|discriminate].
        destruct (table_bind table); injection R as <-; eauto.
    + left. injection V as ->.
      apply _get_columns_specs_loop_raise in L2
        as (before & c & after & inner & E & F & R & ->).
      exists (shown_columns false (table_columns table) ++ before)%list,
        c, after, inner.
      rewrite E, <- app_assoc.
      split; [reflexivity|]. split; [apply Forall_app; now split|].
      split; [exact R|]. unfold column_error_context. now str_norm.
  - left. injection V as ->.
    apply _get_columns_specs_loop_raise in L1
      as (before & c & after & inner & E & F & R & ->).
    exists before, c, (after ++ shown_columns true (table_columns table))%list,
      inner.
    rewrite E, <- app_assoc.
    split; [reflexivity|]. split; [exact F|].
    split; [exact R|]. unfold column_error_context. now str_norm.
Qed.

(** X5: a compilation succeeds exactly when every column it shows
    compiles, the location is resolved, and either no compression codec is
    resolved or the lowercased storage format has a compression key. *)
Theorem compile_succeeds_iff (table : Table) :
  (exists sql, fst (compile table) = Ok sql)
  <-> (Forall (fun c => get_column_specification c = Ok (spec_text c))
              (shown_columns false (table_columns table)
               ++ shown_columns true (table_columns table))
       /\ (exists location, require_location table = Ok location)
       /\ (truthy (resolve_compression table) = false
           \/ exists key,
               dict_get (lower (resolve_stored_as table))
                        COMPRESSION_TBLPROPERTY_KEY = Some key)).
Proof.
  split.
  - intros [sql H]. unfold compile in H.
    destruct (visit_create_table table) as [[sql' t]|e] eqn:V; [|discriminate].
    apply visit_create_table_ok in V as (post & F1 & Hpost & _).
    apply post_create_table_ok in Hpost
      as (location & properties & F2 & L & P & _ & _).
    split; [apply Forall_app; now split|]. split; [eauto|].
    unfold resolve_tblproperties in P.
    destruct (truthy (resolve_compression table)); [|now left].
    right. unfold dict_lookup in P.
    destruct (dict_get _ COMPRESSION_TBLPROPERTY_KEY) as [key|];
      [eauto | discriminate].
  - intros (F & [location L] & K). apply Forall_app in F as [F1 F2].
    unfold compile, visit_create_table, post_create_table, _get_columns_specs.
    destruct (_get_columns_specs_loop_total (table_name table) false
                (table_columns table) "" LF F1) as [specs ->].
    destruct (_get_columns_specs_loop_total (table_name table) true
                (table_columns table) "" LF F2) as [pspecs ->].
    cbn [bind]. rewrite L. cbn [bind]. unfold resolve_tblproperties.
    destruct K as [-> | [key K]].
    + cbn [bind fst]. eauto.
    + unfold dict_lookup. rewrite K.
      destruct (truthy (resolve_compression table)); cbn [bind fst]; eauto.
Qed.

End Outcomes.

(** ** The compression property *)

Section CompressionProperty.

Context {tk : Toolkit}.
Import AthenaDDLCompiler.

Lemma compile_runs (table : Table) (key : string) :
  Forall (fun c => get_column_specification c = Ok (spec_text c))
         (shown_columns false (table_columns table)
          ++ shown_columns true (table_columns table)) ->
  (exists location, require_location table = Ok location) ->
  dict_get (lower (resolve_stored_as table)) COMPRESSION_TBLPROPERTY_KEY
  = Some key ->
  exists sql table', compile table = (Ok sql, table').
Proof.
  intros F [location L] K. apply Forall_app in F as [F1 F2].
  unfold compile, visit_create_table, post_create_table, _get_columns_specs.
  destruct (_get_columns_specs_loop_total (table_name table) false
              (table_columns table) "" LF F1) as [specs ->].
  destruct (_get_columns_specs_loop_total (table_name table) true
              (table_columns table) "" LF F2) as [pspecs ->].
  cbn [bind]. rewrite L. cbn [bind]. unfold resolve_tblproperties, dict_lookup.
  rewrite K.
  destruct (truthy (resolve_compression table)); cbn [bind]; eauto.
Qed.

Lemma compression_key_lookup (format key : string) :
  compression_key format key ->
  dict_get format COMPRESSION_TBLPROPERTY_KEY = Some key.
Proof. now intros [[-> ->] | [[-> ->] | [-> ->]]]. Qed.

(** C4: take a table whose compression codec is the one it names or, when
    it names none, the one its connection was made with.  When the
    lowercased storage format is textfile or json (key compressionType) or
    parquet (key parquet.compress), and the columns compile and the
    location is resolved, the compilation succeeds and its statement ends
    with the TBLPROPERTIES block of the table's own properties to which the
    key was set to the uppercased codec, so that it contains
    'key'='CODEC'.  The other way round, every compilation of the table
    that succeeds found the lowercased storage format among these three
    and rendered that block. *)
Theorem compression_property (table : Table) (codec : string) :
  codec <> "" ->
  opt_compression table = Some codec
  \/ (truthy (opt_compression table) = false
      /\ exists connection,
           table_bind table = Some connection
           /\ dict_get "compression" (_kwargs connection) = Some codec) ->
  (forall key : string,
      compression_key (lower (resolve_stored_as table)) key ->
      Forall (fun c => get_column_specification c = Ok (spec_text c))
             (shown_columns false (table_columns table)
              ++ shown_columns true (table_columns table)) ->
      (exists location, require_location table = Ok location) ->
      exists sql before,
        fst (compile table) = Ok sql
        /\ sql = before
                 ++ _format_tblproperties
                      (dict_set key (upper codec)
                                (declared_tblproperties table))
                 ++ LF ++ LF ++ LF
        /\ contains (property_text key (upper codec)) sql = true)
  /\ (forall (sql : string) (table' : Table),
        compile table = (Ok sql, table') ->
        exists key before,
          compression_key (lower (resolve_stored_as table)) key
          /\ sql = before
                   ++ _format_tblproperties
                        (dict_set key (upper codec)
                                  (declared_tblproperties table))
                   ++ LF ++ LF ++ LF
          /\ contains (property_text key (upper codec)) sql = true).
Proof.
  intros N S. pose proof (resolve_compression_source table codec N S) as C.
  assert (R : forall sql table' key before,
             compile table = (Ok sql, table') ->
             sql = before
                   ++ _format_tblproperties
                        (dict_set key (upper codec)
                                  (declared_tblproperties table))
                   ++ LF ++ LF ++ LF ->
             contains (property_text key (upper codec)) sql = true).
  { intros sql table' key before _ ->.
    destruct (contains_split _ _
                (_format_tblproperties_In key (upper codec) _
                   (dict_set_In key (upper codec)
                                (declared_tblproperties table))))
      as (pre & post & ->).
    apply (contains_at (before ++ pre) (post ++ LF ++ LF ++ LF)).
    now rewrite !append_assoc. }
  split.
  - intros key K F L. apply compression_key_lookup in K.
    destruct (compile_runs table key F L K) as (sql & table' & H).
    destruct (compression_rendered table sql table' codec H C N)
      as (key' & before & K' & E).
    rewrite K in K'. injection K' as <-.
    exists sql, before. rewrite H. cbn [fst].
    split; [reflexivity|]. split; [exact E|]. exact (R _ _ _ _ H E).
  - intros sql table' H.
    destruct (compression_rendered table sql table' codec H C N)
      as (key & before & K & E).
    exists key, before.
    split; [now apply COMPRESSION_TBLPROPERTY_KEY_entries|].
    split; [exact E|]. exact (R _ _ _ _ H E).
Qed.

End CompressionProperty.

Lemma compression_property_witness :
  (exists sql before,
      fst (@AthenaDDLCompiler.compile plain_toolkit events) = Ok sql
      /\ sql = before
               ++ _format_tblproperties [("parquet.compress", "SNAPPY")]
               ++ LF ++ LF ++ LF
      /\ contains "'parquet.compress'='SNAPPY'" sql = true)
  /\ (exists sql before,
        fst (@AthenaDDLCompiler.compile plain_toolkit logs) = Ok sql
        /\ sql = before
                 ++ _format_tblproperties [("compressionType", "GZIP")]
                 ++ LF ++ LF ++ LF
        /\ contains "'compressionType'='GZIP'" sql = true)
  /\ (exists sql before,
        fst (@AthenaDDLCompiler.compile plain_toolkit archive) = Ok sql
        /\ sql = before
                 ++ _format_tblproperties [("compressionType", "GZIP")]
                 ++ LF ++ LF ++ LF
        /\ contains "'compressionType'='GZIP'" sql = true)
  /\ (exists sql before,
        fst (@AthenaDDLCompiler.compile plain_toolkit squeezed) = Ok sql
        /\ sql = before
                 ++ _format_tblproperties
                      [("owner", "etl"); ("parquet.compress", "SNAPPY")]
                 ++ LF ++ LF ++ LF
        /\ contains "'parquet.compress'='SNAPPY'" sql = true).
Proof.
  split; [|split; [|split]].
  - apply (proj1 (@compression_property plain_toolkit events "snappy"
                    ltac:(discriminate) (or_introl eq_refl))
                 "parquet.compress").
    + right; left; split; reflexivity.
    + repeat constructor.
    + eexists; reflexivity.
  - apply (proj1 (@compression_property plain_toolkit logs "gzip"
                    ltac:(discriminate) (or_introl eq_refl))
                 "compressionType").
    + left; split; reflexivity.
    + repeat constructor.
    + eexists; reflexivity.
  - apply (proj1 (@compression_property plain_toolkit archive "gzip"
                    ltac:(discriminate)
                    (or_intror
                       (conj eq_refl
                             (ex_intro _ gzip_connection
                                       (conj eq_refl eq_refl)))))
                 "compressionType").
    + right; right; split; reflexivity.
    + repeat constructor.
    + eexists; reflexivity.
  - apply (proj1 (@compression_property plain_toolkit squeezed "snappy"
                    ltac:(discriminate) (or_introl eq_refl))
                 "parquet.compress").
    + right; left; split; reflexivity.
    + repeat constructor.
    + eexists; reflexivity.
Defined.

Lemma compile_failure_cases_witness :
  fst (@AthenaDDLCompiler.compile plain_toolkit clicks) = Raise (KeyError "orc")
  /\ dict_get (lower (AthenaDDLCompiler.resolve_stored_as clicks))
              COMPRESSION_TBLPROPERTY_KEY = None.
Proof.
  split; [reflexivity|].
  destruct (@compile_failure_cases plain_toolkit clicks (KeyError "orc")
              eq_refl)
    as [(before & c & after & inner & _ & _ & _ & E)
       | [(_ & _ & msg & E) | (_ & _ & _ & K & _)]];
    [discriminate E | discriminate E | exact K].
Defined.

(** ** The storage clauses *)

Lemma last_char_append (a : string) (c : ascii) :
  last_char (a ++ String c "") = Some c.
Proof.
  induction a as [|x a IH]; [reflexivity|].
  cbn [append last_char]. rewrite IH.
  destruct (a ++ String c "") eqn:E; [|reflexivity].
  now destruct a.
Qed.

Lemma ends_with_slash_append (a : string) : ends_with_slash (a ++ "/") = true.
Proof. unfold ends_with_slash. now rewrite last_char_append. Qed.

Section StorageClauses.

Context {tk : Toolkit}.
Import AthenaDDLCompiler.

Lemma require_location_slash (table : Table) (location : string) :
  require_location table = Ok location -> ends_with_slash location = true.
Proof.
  unfold require_location, resolve_location.
  destruct (truthy (opt_location table)) eqn:T.
  - rewrite slash_suffix.
    destruct (ends_with_slash (str_of_opt (opt_location table))) eqn:S.
    + rewrite append_nil_r. destruct (negb _); [destruct (table_bind table); discriminate|].
      now intros [= <-].
    + destruct (negb _); [destruct (table_bind table); discriminate|]. intros [= <-].
      apply ends_with_slash_append.
  - destruct (table_bind table) as [connection|]; [|discriminate].
    destruct (negb _); [destruct (table_bind table); discriminate|]. cbn [str_of_opt]. intros [= <-].
    match goal with
    | |- ends_with_slash (?a ++ ?b ++ String "/" (?c ++ "/")) = true =>
        change (a ++ b ++ String "/" (c ++ "/"))
          with (a ++ b ++ (String "/" c) ++ "/")
    end.
    rewrite <- !append_assoc. apply ends_with_slash_append.
Qed.

Lemma compile_KeyError_inversion (table : Table) (key : string) :
  fst (compile table) = Raise (KeyError key) ->
  dict_get (lower (resolve_stored_as table)) COMPRESSION_TBLPROPERTY_KEY
  = None.
Proof.
  unfold compile.
  destruct (visit_create_table table) as [[sql t]|e] eqn:V; [discriminate|].
  cbn [fst]. intros [= ->]. unfold visit_create_table in V.
  destruct (_get_columns_specs table false) as [specs|e1] eqn:L1;
    cbn [bind] in V;
    [|apply _get_columns_specs_raises_CompileError in L1 as [msg ->];
      discriminate].
  unfold post_create_table in V.
  destruct (_get_columns_specs table true) as [pspecs|e2] eqn:L2;
    cbn [bind] in V;
    [|apply _get_columns_specs_raises_CompileError in L2 as [msg ->];
      discriminate].
  destruct (require_location table) as [location|e3] eqn:R; cbn [bind] in V.
  - unfold resolve_tblproperties, dict_lookup in V.
    destruct (truthy (resolve_compression table)); [|discriminate].
    now destruct (dict_get (lower (resolve_stored_as table))
                           COMPRESSION_TBLPROPERTY_KEY).
  - unfold require_location in R. destruct (negb _); [|discriminate].
    destruct (table_bind table); injection R as <-; discriminate.
Qed.

(** X6: the location a compilation renders always ends with a slash,
    whether it comes from the table or from the connection. *)
Theorem rendered_location_ends_with_slash
    (table : Table) (sql : string) (table' : Table) :
  compile table = (Ok sql, table') ->
  exists location before after,
    sql = before ++ location_clause location ++ after
    /\ ends_with_slash location = true.
Proof.
  intros H. apply compile_ok in H.
  apply visit_create_table_ok in H as (post & _ & Hpost & ->).
  apply post_create_table_ok in Hpost
    as (location & properties & _ & Hloc & _ & _ & ->).
  exists location.
  exists (LF ++ "CREATE EXTERNAL TABLE "
          ++ format_table (table_schema table) (table_name table) ++ " ("
          ++ column_lines LF
               (List.map spec_text
                         (shown_columns false (table_columns table)))
          ++ LF ++ ")" ++ LF
          ++ comment_clause table
          ++ partitioned_by_clause
               (List.map spec_text
                         (shown_columns true (table_columns table)))
          ++ row_format_clause table
          ++ "STORED AS " ++ resolve_stored_as table ++ LF).
  exists (tblproperties_clause properties ++ LF ++ LF).
  split; [unfold location_clause; now str_norm|].
  now apply require_location_slash in Hloc.
Qed.

(** X7: a table with no storage format is stored as PARQUET, and its
    compression then always has a key: a codec gives the property
    parquet.compress, and the compilation never ends in a KeyError. *)
Theorem default_storage_format (table : Table) :
  truthy (opt_stored_as table) = false ->
  resolve_stored_as table = "PARQUET"
  /\ (forall key, fst (compile table) <> Raise (KeyError key))
  /\ (forall sql table' codec,
        compile table = (Ok sql, table') ->
        resolve_compression table = Some codec -> codec <> "" ->
        exists before properties,
          sql = before ++ "STORED AS PARQUET" ++ LF
                ++ location_clause
                     (match require_location table with
                      | Ok location => location
                      | Raise _ => ""
                      end)
                ++ _format_tblproperties properties ++ LF ++ LF ++ LF
          /\ dict_get "parquet.compress" properties = Some (upper codec)).
Proof.
  intros S.
  assert (resolve_stored_as table = "PARQUET") as E
    by (unfold resolve_stored_as; now rewrite S).
  split; [exact E|]. split.
  - intros key H. apply compile_KeyError_inversion in H.
    rewrite E in H. discriminate H.
  - intros sql table' codec H C N. apply compile_ok in H.
    apply visit_create_table_ok in H as (post & _ & Hpost & ->).
    apply post_create_table_ok in Hpost
      as (location & properties & _ & Hloc & Hprops & _ & ->).
    rewrite Hloc. unfold resolve_tblproperties in Hprops.
    rewrite C, (truthy_nonempty _ N), E in Hprops.
    cbn [bind str_of_opt] in Hprops. injection Hprops as <-. rewrite E.
    exists (LF ++ "CREATE EXTERNAL TABLE "
            ++ format_table (table_schema table) (table_name table) ++ " ("
            ++ column_lines LF
                 (List.map spec_text
                           (shown_columns false (table_columns table)))
            ++ LF ++ ")" ++ LF
            ++ comment_clause table
            ++ partitioned_by_clause
                 (List.map spec_text
                           (shown_columns true (table_columns table)))
            ++ row_format_clause table).
    exists (dict_set "parquet.compress" (upper codec)
                     (fst (local_tblproperties table))).
    split; [|apply dict_get_set].
    unfold tblproperties_clause, location_clause.
    destruct (dict_set _ _ _) eqn:D; [now apply dict_set_nonempty in D|].
    rewrite <- D.
    generalize (_format_tblproperties
                  (dict_set "parquet.compress" (upper codec)
                            (fst (local_tblproperties table)))).
    intros formatted. now str_norm.
Qed.

End StorageClauses.

Lemma default_storage_format_witness :
  truthy (opt_stored_as codes) = false
  /\ AthenaDDLCompiler.resolve_stored_as codes = "PARQUET".
Proof.
  split; [reflexivity|].
  exact (proj1 (@default_storage_format plain_toolkit codes eq_refl)).
Defined.

Lemma rendered_location_ends_with_slash_witness :
  @AthenaDDLCompiler.compile plain_toolkit codes = (Ok codes_sql, codes)
  /\ exists location before after,
      codes_sql = before ++ location_clause location ++ after
      /\ ends_with_slash location = true.
Proof.
  split; [reflexivity|].
  exact (@rendered_location_ends_with_slash plain_toolkit codes codes_sql codes
           eq_refl).
Defined.

(** ** The order of the table properties *)

Lemma dict_get_set_other (k k' v : string) (d : dict) :
  k' <> k -> dict_get k' (dict_set k v d) = dict_get k' d.
Proof.
  intros N. induction d as [|[k0 v0] d IH]; cbn [dict_set dict_get].
  - destruct (String.eqb_spec k k') as [->|_]; [now elim N | reflexivity].
  - destruct (String.eqb_spec k0 k) as [->|E]; cbn [dict_get].
    + destruct (String.eqb_spec k k') as [->|_]; [now elim N | reflexivity].
    + now rewrite IH.
Qed.

Lemma dict_set_absent (k v : string) (d : dict) :
  dict_get k d = None -> dict_set k v d = (d ++ [(k, v)])%list.
Proof.
  induction d as [|[k0 v0] d IH]; cbn [dict_set dict_get app]; [reflexivity|].
  destruct (String.eqb k0 k); [discriminate|]. intros H. now rewrite IH.
Qed.

Lemma dict_set_present (k v : string) (d : dict) :
  dict_get k d <> None ->
  List.map fst (dict_set k v d) = List.map fst d.
Proof.
  induction d as [|[k0 v0] d IH]; cbn [dict_set dict_get List.map fst];
    [now intros []|].
  destruct (String.eqb_spec k0 k) as [->|_]; [reflexivity|].
  intros H. cbn [List.map fst]. now rewrite IH.
Qed.

Section PropertyOrder.

Context {tk : Toolkit}.
Import AthenaDDLCompiler.

(** X8: in the TBLPROPERTIES block of a compressed table the table's own
    properties keep their order and their values, and the compression
    property goes last when the table has no property of that key; when it
    has one, the compression takes its place and overrides its value. *)
Theorem compression_key_position
    (table : Table) (sql : string) (table' : Table) (codec key : string) :
  compile table = (Ok sql, table') ->
  resolve_compression table = Some codec -> codec <> "" ->
  dict_get (lower (resolve_stored_as table)) COMPRESSION_TBLPROPERTY_KEY
  = Some key ->
  let own := fst (local_tblproperties table) in
  exists properties before,
    sql = before ++ _format_tblproperties properties ++ LF ++ LF ++ LF
    /\ (dict_get key own = None ->
        properties = (own ++ [(key, upper codec)])%list)
    /\ (dict_get key own <> None ->
        List.map fst properties = List.map fst own
        /\ dict_get key properties = Some (upper codec))
    /\ (forall k, k <> key -> dict_get k properties = dict_get k own).
Proof.
  intros H C N K own. apply compile_ok in H.
  apply visit_create_table_ok in H as (post & _ & Hpost & ->).
  apply post_create_table_ok in Hpost
    as (location & properties & _ & _ & Hprops & _ & ->).
  unfold resolve_tblproperties in Hprops.
  rewrite C, (truthy_nonempty _ N) in Hprops. unfold dict_lookup in Hprops.
  rewrite K in Hprops. cbn [bind str_of_opt] in Hprops.
  injection Hprops as <-. fold own.
  exists (dict_set key (upper codec) own).
  exists (LF ++ "CREATE EXTERNAL TABLE "
          ++ format_table (table_schema table) (table_name table) ++ " ("
          ++ column_lines LF
               (List.map spec_text
                         (shown_columns false (table_columns table)))
          ++ LF ++ ")" ++ LF
          ++ comment_clause table
          ++ partitioned_by_clause
               (List.map spec_text
                         (shown_columns true (table_columns table)))
          ++ row_format_clause table
          ++ "STORED AS " ++ resolve_stored_as table ++ LF
          ++ "LOCATION '" ++ location ++ "'" ++ LF).
  split; [|split; [|split]].
  - unfold tblproperties_clause.
    destruct (dict_set key (upper codec) own) eqn:D;
      [now apply dict_set_nonempty in D|].
    rewrite <- D.
    generalize (_format_tblproperties (dict_set key (upper codec) own)).
    intros formatted. now str_norm.
  - apply dict_set_absent.
  - intros P. split; [now apply dict_set_present | apply dict_get_set].
  - intros k Nk. now apply dict_get_set_other.
Qed.

End PropertyOrder.

Lemma compression_key_position_witness :
  AthenaDDLCompiler.resolve_compression tagged = Some "snappy"
  /\ exists before,
      fst (@AthenaDDLCompiler.compile plain_toolkit tagged)
      = Ok (before
            ++ _format_tblproperties
                 [("owner", "etl"); ("parquet.compress", "SNAPPY")]
            ++ LF ++ LF ++ LF).
Proof.
  split; [reflexivity|].
  destruct (@compression_key_position plain_toolkit tagged
              (match fst (@AthenaDDLCompiler.compile plain_toolkit tagged) with
               | Ok sql => sql | Raise _ => "" end)
              (snd (@AthenaDDLCompiler.compile plain_toolkit tagged))
              "snappy" "parquet.compress" eq_refl eq_refl)
    as (properties & before & E & A & _); [discriminate | reflexivity |].
  exists before.
  transitivity
    (Ok (match fst (@AthenaDDLCompiler.compile plain_toolkit tagged) with
         | Ok sql => sql | Raise _ => "" end)); [reflexivity|].
  f_equal. rewrite E, (A eq_refl). reflexivity.
Defined.

(** * Further properties of the reflection *)

Section ReflectionLayout.

Import AthenaDialect.

Variable raw_connection : Connection.
Variable _get_table_metadata : string -> string -> result TableMetadata.

Lemma queried_schema_spec (schema : option string) :
  (if truthy schema then str_of_opt schema else schema_name raw_connection)
  = queried_schema raw_connection schema.
Proof. unfold queried_schema. now destruct schema as [[|]|]. Qed.

(** X9: the columns of a table that the catalog describes are reported
    with the regular columns first and the partition keys after them, each
    group in the order of the catalog, under their names and comments; all
    are nullable, and the partition flag is set on the partition keys and
    on no other column. *)
Theorem get_columns_layout
    (table_name : string) (schema : option string) (metadata : TableMetadata) :
  _get_table raw_connection _get_table_metadata table_name schema
  = Ok metadata ->
  exists specs,
    get_columns raw_connection _get_table_metadata table_name schema = Ok specs
    /\ List.map spec_name specs
       = (List.map meta_name (meta_columns metadata)
          ++ List.map meta_name (meta_partition_keys metadata))%list
    /\ List.map spec_comment specs
       = (List.map meta_comment (meta_columns metadata)
          ++ List.map meta_comment (meta_partition_keys metadata))%list
    /\ List.map spec_partition specs
       = (repeat false (List.length (meta_columns metadata))
          ++ repeat true (List.length (meta_partition_keys metadata)))%list
    /\ Forall (fun spec => spec_nullable spec = true) specs.
Proof.
  intros G. rewrite get_columns_spec, G. cbn [bind]. eexists.
  split; [reflexivity|].
  rewrite !map_app, !map_map. cbn [column_spec spec_name spec_comment
                                     spec_partition].
  repeat split.
  - f_equal.
    + induction (meta_columns metadata); cbn; [reflexivity | now f_equal].
    + induction (meta_partition_keys metadata); cbn;
        [reflexivity | now f_equal].
  - apply Forall_app. split; apply Forall_map, Forall_forall; reflexivity.
Qed.

(** X10: when the catalog answers with an OperationalError caused by a
    ClientError of code MetadataException, the existence check answers
    False and the column reflection raises NoSuchTableError for the queried
    table; an OperationalError with any other cause is raised unchanged by
    both.  The catalog is asked about the given schema, or about the schema
    of the connection when none is given. *)
Theorem metadata_exception_means_no_table
    (table_name : string) (schema : option string)
    (cause : option string) (msg : string) :
  _get_table_metadata table_name (queried_schema raw_connection schema)
  = Raise (OperationalError cause msg) ->
  if option_eqb cause "MetadataException" then
    get_columns raw_connection _get_table_metadata table_name schema
    = Raise (NoSuchTableError table_name)
    /\ has_table raw_connection _get_table_metadata table_name schema
       = Ok false
  else
    get_columns raw_connection _get_table_metadata table_name schema
    = Raise (OperationalError cause msg)
    /\ has_table raw_connection _get_table_metadata table_name schema
       = Raise (OperationalError cause msg).
Proof.
  intros H. unfold has_table. rewrite get_columns_spec. unfold _get_table.
  rewrite queried_schema_spec, H.
  destruct cause as [code|]; cbn [option_eqb].
  - destruct (String.eqb code "MetadataException"); cbn [bind];
      split; reflexivity.
  - cbn [bind]. split; reflexivity.
Qed.

End ReflectionLayout.

Lemma get_columns_layout_witness :
  let catalog := fun _ _ : string =>
    Ok (mkTableMetadata [mkColumnMetadata "id" "int" None]
                        [mkColumnMetadata "dt" "date" None] None) in
  exists specs,
    AthenaDialect.get_columns workgroup_connection catalog "events" None
    = Ok specs
    /\ List.map spec_name specs = ["id"; "dt"]
    /\ List.map spec_partition specs = [false; true].
Proof.
  intros catalog.
  destruct (get_columns_layout workgroup_connection catalog "events" None
              (mkTableMetadata [mkColumnMetadata "id" "int" None]
                               [mkColumnMetadata "dt" "date" None] None)
              eq_refl)
    as (specs & G & N & _ & P & _).
  exists specs. repeat split; assumption.
Defined.

Lemma metadata_exception_means_no_table_witness :
  let catalog := fun _ _ : string =>
    @Raise TableMetadata
           (OperationalError (Some "MetadataException") "no such table") in
  AthenaDialect.has_table workgroup_connection catalog "ghost" None = Ok false.
Proof.
  intros catalog.
  exact (proj2 (metadata_exception_means_no_table
                  workgroup_connection catalog "ghost" None
                  (Some "MetadataException") "no such table" eq_refl)).
Defined.

Section TypeLookup.

Import Re AthenaDialect.

Lemma _TYPE_MAPPINGS_keys (k : string) (v : sqltypes.t) :
  In (k, v) _TYPE_MAPPINGS ->
  lower k = k /\ starts_with_letter k = true.
Proof.
  unfold _TYPE_MAPPINGS. cbn [In]. intros H.
  repeat (destruct H as [[= <- <-]|H]; [split; reflexivity|]). contradiction.
Qed.

(** X11: the lookup of the reflected type is case-sensitive and all the
    keys are in lowercase: a catalog type whose keyword has an uppercase
    letter is reflected as the null type. *)
Theorem uppercase_keyword_is_unknown
    (partition : bool) (column : ColumnMetadata) :
  lower (_get_column_type (meta_type column))
  <> _get_column_type (meta_type column) ->
  spec_type (column_spec partition column) = sqltypes.NULLTYPE.
Proof.
  intros N. unfold column_spec. cbn [spec_type].
  apply mapping_get_default. intros v H.
  apply _TYPE_MAPPINGS_keys in H as [L _]. now elim N.
Qed.

Lemma sub_from_no_match (rest : string) :
  forall pos, sub_from _pattern_column_type "1" (S pos) rest 0 = rest.
Proof.
  induction rest as [|c rest IH]; intros pos; cbn [sub_from];
    rewrite match_at_after_start; [reflexivity | now rewrite IH].
Qed.

Lemma match_at_needs_letter (s : string) :
  starts_with_letter s = false -> match_at _pattern_column_type 0 s = None.
Proof.
  unfold match_at, _pattern_column_type. cbn [run Nat.eqb].
  destruct s as [|c s]; cbn [starts_with_letter plus]; [reflexivity|].
  now intros ->.
Qed.

(** X12: a catalog type that does not start with a letter, the empty
    text included, is left as it is by the keyword extraction and is
    reflected as the null type. *)
Theorem type_without_keyword
    (partition : bool) (column : ColumnMetadata) :
  starts_with_letter (meta_type column) = false ->
  _get_column_type (meta_type column) = meta_type column
  /\ spec_type (column_spec partition column) = sqltypes.NULLTYPE.
Proof.
  intros S.
  assert (_get_column_type (meta_type column) = meta_type column) as E.
  { unfold _get_column_type, sub.
    destruct (meta_type column) as [|c s] eqn:T; cbn [sub_from];
      rewrite (match_at_needs_letter _ S); [reflexivity|].
    now rewrite sub_from_no_match. }
  split; [exact E|]. unfold column_spec. cbn [spec_type]. rewrite E.
  apply mapping_get_default. intros v H.
  apply _TYPE_MAPPINGS_keys in H as [_ L]. congruence.
Qed.

(** X13: an OperationalError whose text does not hold the words
    " not found." is never taken for a missing schema or table: the helper
    answers True, whatever the queried names. *)
Theorem other_errors_are_retried (text schema table_name : string) :
  contains " not found." text = false ->
  _retry_if_data_catalog_exception true text schema table_name = true.
Proof.
  intros C. unfold _retry_if_data_catalog_exception. cbn [negb].
  destruct (search _pattern_data_catlog_exception text) as [caps|] eqn:S;
    [|reflexivity].
  apply search_from_inv in S as (before & rest & e & -> & M).
  apply match_at_inv in M as (kw & n & after & -> & _).
  rewrite (contains_at (before ++ kw ++ " " ++ n) after " not found.") in C;
    [discriminate|].
  now rewrite !append_assoc.
Qed.

End TypeLookup.

Lemma uppercase_keyword_is_unknown_witness :
  AthenaDialect._get_column_type "VARCHAR(10)" = "VARCHAR"
  /\ spec_type (AthenaDialect.column_spec
                  false (mkColumnMetadata "name" "VARCHAR(10)" None))
     = sqltypes.NULLTYPE.
Proof.
  split; [reflexivity|].
  apply uppercase_keyword_is_unknown. vm_compute. discriminate.
Defined.

Lemma type_without_keyword_witness :
  starts_with_letter " int" = false
  /\ AthenaDialect._get_column_type " int" = " int".
Proof.
  split; [reflexivity|].
  exact (proj1 (type_without_keyword
                  false (mkColumnMetadata "n" " int" None) eq_refl)).
Defined.

Lemma other_errors_are_retried_witness :
  contains " not found." "Rate exceeded" = false
  /\ AthenaDialect._retry_if_data_catalog_exception
       true "Rate exceeded" "default" "events" = true.
Proof.
  split; [reflexivity|]. now apply other_errors_are_retried.
Defined.

(** * The lists of tables and views *)

Section ListingProperties.

Variable raw_connection : Connection.
Variable _list_table_metadata :
  string -> option string -> result (option string * list TableEntry).

Lemma _get_tables_loop_pages (schema : string)
    (pages : list (list TableEntry)) (token : option string) :
  pages_from _list_table_metadata schema token pages ->
  forall (fuel : nat) (tables : list TableEntry),
    List.length pages <= fuel ->
    _get_tables_loop _list_table_metadata fuel schema token tables
    = Some (Ok (tables ++ List.concat pages)%list).
Proof.
  induction 1 as [token next response E T
                 | token next response pages E T W IH];
    intros [|fuel] tables L; cbn [List.length] in L; try lia;
    cbn [_get_tables_loop List.concat]; rewrite E, T; cbn [negb].
  - now rewrite app_nil_r.
  - rewrite IH by lia. now rewrite <- app_assoc.
Qed.

Lemma _get_tables_loop_inv (schema : string) :
  forall (fuel : nat) (token : option string)
         (tables result : list TableEntry),
    _get_tables_loop _list_table_metadata fuel schema token tables
    = Some (Ok result) ->
    exists pages,
      pages_from _list_table_metadata schema token pages
      /\ List.length pages <= fuel
      /\ result = (tables ++ List.concat pages)%list.
Proof.
  induction fuel as [|fuel IH]; intros token tables result H;
    cbn [_get_tables_loop] in H; [discriminate|].
  destruct (_list_table_metadata schema token) as [[next response]|e] eqn:E;
    [|discriminate].
  destruct (truthy next) eqn:T; cbn [negb] in H.
  - apply IH in H as (pages & W & L & ->).
    exists (response :: pages). cbn [List.length List.concat].
    split; [now apply (pages_next _ _ _ next)|].
    split; [lia | now rewrite <- app_assoc].
  - injection H as <-. exists [response]. cbn [List.length List.concat].
    split; [now apply (pages_last _ _ _ next)|].
    split; [lia | now rewrite app_nil_r].
Qed.

(** X14: the list of tables is the pages of the catalog put one after the
    other, from the page asked for without a token up to the first page
    that comes without a token (or with an empty one); asking for at least
    as many pages as the list has gives this result, and a result is never
    anything else. *)
Theorem get_tables_pages (fuel : nat) (schema : option string) :
  (forall pages,
      pages_from _list_table_metadata
                 (queried_schema raw_connection schema) None pages ->
      List.length pages <= fuel ->
      _get_tables raw_connection _list_table_metadata fuel schema
      = Some (Ok (List.concat pages)))
  /\ (forall tables,
        _get_tables raw_connection _list_table_metadata fuel schema
        = Some (Ok tables) ->
        exists pages,
          pages_from _list_table_metadata
                     (queried_schema raw_connection schema) None pages
          /\ List.length pages <= fuel
          /\ tables = List.concat pages).
Proof.
  unfold _get_tables. rewrite queried_schema_spec. split.
  - intros pages W L.
    now rewrite (_get_tables_loop_pages _ _ _ W fuel [] L).
  - intros tables H. apply _get_tables_loop_inv in H as (pages & W & L & ->).
    now exists pages.
Qed.

Lemma filter_lengths (tables : list TableEntry) :
  List.length
    (filter (fun t => String.eqb (entry_table_type t) "EXTERNAL_TABLE") tables)
  + List.length
      (filter (fun t => String.eqb (entry_table_type t) "VIRTUAL_VIEW") tables)
  + List.length
      (filter (fun t =>
                 negb (String.eqb (entry_table_type t) "EXTERNAL_TABLE")
                 && negb (String.eqb (entry_table_type t) "VIRTUAL_VIEW"))
              tables)
  = List.length tables.
Proof.
  induction tables as [|t tables IH]; [reflexivity|]. cbn [filter].
  destruct (String.eqb_spec (entry_table_type t) "EXTERNAL_TABLE") as [E|_].
  - rewrite E. cbn. lia.
  - destruct (String.eqb (entry_table_type t) "VIRTUAL_VIEW");
      cbn [negb andb List.length]; lia.
Qed.

(** X15: the table names and the view names are read from the same list:
    each entry of the catalog gives a table name when its type is
    EXTERNAL_TABLE, a view name when its type is VIRTUAL_VIEW, and nothing
    when it has another type, so the two lists together are as long as the
    catalog's list less the entries of other types; when the catalog fails
    both fail with its error. *)
Theorem names_split_the_list (fuel : nat) (schema : option string) :
  match _get_tables raw_connection _list_table_metadata fuel schema with
  | Some (Ok tables) =>
      exists names views,
        get_table_names raw_connection _list_table_metadata fuel schema
        = Some (Ok names)
        /\ get_view_names raw_connection _list_table_metadata fuel schema
           = Some (Ok views)
        /\ List.length names + List.length views
           + List.length
               (filter (fun t =>
                          negb (String.eqb (entry_table_type t)
                                           "EXTERNAL_TABLE")
                          && negb (String.eqb (entry_table_type t)
                                              "VIRTUAL_VIEW"))
                       tables)
           = List.length tables
        /\ (forall n, In n names ->
                      exists t, In t tables /\ entry_name t = n
                                /\ entry_table_type t = "EXTERNAL_TABLE")
        /\ (forall n, In n views ->
                      exists t, In t tables /\ entry_name t = n
                                /\ entry_table_type t = "VIRTUAL_VIEW")
  | Some (Raise e) =>
      get_table_names raw_connection _list_table_metadata fuel schema
      = Some (Raise e)
      /\ get_view_names raw_connection _list_table_metadata fuel schema
         = Some (Raise e)
  | None =>
      get_table_names raw_connection _list_table_metadata fuel schema = None
      /\ get_view_names raw_connection _list_table_metadata fuel schema = None
  end.
Proof.
  unfold get_table_names, get_view_names.
  destruct (_get_tables raw_connection _list_table_metadata fuel schema)
    as [[tables|e]|]; [|split; reflexivity|split; reflexivity].
  do 2 eexists. split; [reflexivity|]. split; [reflexivity|].
  split; [rewrite !length_map; apply filter_lengths|]. split.
  - intros n H. apply in_map_iff in H as (t & <- & H).
    apply filter_In in H as [H T]. apply String.eqb_eq in T. eauto.
  - intros n H. apply in_map_iff in H as (t & <- & H).
    apply filter_In in H as [H T]. apply String.eqb_eq in T. eauto.
Qed.

End ListingProperties.

(** A catalog that lists a table on a first page and a view on a second. *)
Lemma get_tables_pages_witness :
  let catalog := fun (_ : string) (token : option string) =>
    match token with
    | None => Ok (Some "page2", [mkTableEntry "events" "EXTERNAL_TABLE"])
    | Some _ => Ok (None, [mkTableEntry "daily" "VIRTUAL_VIEW"])
    end in
  _get_tables workgroup_connection catalog 2 None
  = Some (Ok [mkTableEntry "events" "EXTERNAL_TABLE";
              mkTableEntry "daily" "VIRTUAL_VIEW"]).
Proof.
  intros catalog.
  apply (proj1 (get_tables_pages workgroup_connection catalog 2 None)
               [[mkTableEntry "events" "EXTERNAL_TABLE"];
                [mkTableEntry "daily" "VIRTUAL_VIEW"]]).
  - apply (pages_next _ _ None (Some "page2")); [reflexivity | reflexivity|].
    apply (pages_last _ _ (Some "page2") None); reflexivity.
  - cbn. lia.
Defined.

(** * The arguments of a connection *)

Section Anchored.

Import Re.

Variable r : regex.
Variable g : string.

Lemma anchored_after_start (pos : nat) (rest : string) :
  match_at (Cat Bol r) (S pos) rest = None.
Proof. reflexivity. Qed.

Lemma sub_anchored_skip (rest : string) :
  forall pos, sub_from (Cat Bol r) g (S pos) rest (String.length rest) = "".
Proof.
  induction rest as [|c rest IH]; intros pos; cbn [sub_from String.length].
  - now rewrite anchored_after_start.
  - apply IH.
Qed.

Lemma sub_anchored_copy (rest : string) :
  forall pos, sub_from (Cat Bol r) g (S pos) rest 0 = rest.
Proof.
  induction rest as [|c rest IH]; intros pos; cbn [sub_from];
    rewrite anchored_after_start; [reflexivity | now rewrite IH].
Qed.

Lemma sub_anchored_whole (text : string) (caps : captures) (v : string) :
  text <> "" ->
  match_at (Cat Bol r) 0 text = Some (String.length text, caps) ->
  group g caps = Some v ->
  sub (Cat Bol r) g text = v.
Proof.
  intros N M G. unfold sub. destruct text as [|c rest]; [now elim N|].
  cbn [sub_from]. rewrite M, G. cbn [String.length Nat.eqb].
  rewrite Nat.sub_0_r. cbn [Nat.sub]. rewrite Nat.sub_0_r.
  now rewrite sub_anchored_skip, append_nil_r.
Qed.

Lemma sub_anchored_none (text : string) :
  match_at (Cat Bol r) 0 text = None -> sub (Cat Bol r) g text = text.
Proof.
  intros M. unfold sub. destruct text as [|c rest]; cbn [sub_from];
    rewrite M; [reflexivity | now rewrite sub_anchored_copy].
Qed.

End Anchored.

Section Region.

Import Re.

Lemma _pattern_region_shape :
  _pattern_region
  = Cat Bol
      (Cat (Str "athena.")
         (Cat (Group "1" (Plus region_char))
            (Cat (Str ".amazonaws.")
               (Cat (Group "2"
                       (Alt (Str "com")
                            (Cat (Str "com") (Cat (Set_ dot) (Str "cn")))))
                    Eol)))).
Proof. reflexivity. Qed.

Lemma match_at_region (region tld : string) :
  region <> "" -> all_chars region_char region = true ->
  tld = "com" \/ tld = "com.cn" ->
  exists e caps,
    match_at _pattern_region 0 ("athena." ++ region ++ ".amazonaws." ++ tld)
    = Some (e, caps)
    /\ e = String.length ("athena." ++ region ++ ".amazonaws." ++ tld)
    /\ group "1" caps = Some region.
Proof.
  intros N A T. unfold match_at, _pattern_region. cbn [run Nat.eqb].
  rewrite (prefix_append "athena."), drop_append.
  assert (forall tld : string,
             String.length ("athena." ++ region ++ ".amazonaws." ++ tld)
             = 0 + String.length "athena." + String.length region
               + String.length ".amazonaws." + String.length tld) as L
    by (intros; rewrite !append_length; lia).
  destruct T as [-> | ->]; do 2 eexists; (split; [|split]).
  - apply (plus_take_at _ _ _ _ region (".amazonaws." ++ "com"));
      [reflexivity | exact N | exact A | reflexivity |].
    rewrite (prefix_append ".amazonaws."), drop_append. reflexivity.
  - rewrite L. cbn [String.length]. lia.
  - cbn [group String.eqb Ascii.eqb Bool.eqb].
    rewrite (Nat.add_comm _ (String.length region)), Nat.add_sub.
    now rewrite substring_append.
  - apply (plus_take_at _ _ _ _ region (".amazonaws." ++ "com.cn"));
      [reflexivity | exact N | exact A | reflexivity |].
    rewrite (prefix_append ".amazonaws."), drop_append. reflexivity.
  - rewrite L. cbn [String.length]. lia.
  - cbn [group String.eqb Ascii.eqb Bool.eqb].
    rewrite (Nat.add_comm _ (String.length region)), Nat.add_sub.
    now rewrite substring_append.
Qed.

Lemma sub_region (region tld : string) :
  region <> "" -> all_chars region_char region = true ->
  tld = "com" \/ tld = "com.cn" ->
  sub _pattern_region "1" ("athena." ++ region ++ ".amazonaws." ++ tld)
  = region.
Proof.
  intros N A T.
  destruct (match_at_region region tld N A T) as (e & caps & M & -> & G).
  rewrite _pattern_region_shape in *.
  now apply (sub_anchored_whole _ _ _ caps).
Qed.

Lemma sub_region_other (host : string) :
  String.prefix "athena." host = false ->
  sub _pattern_region "1" host = host.
Proof.
  intros P. rewrite _pattern_region_shape. apply sub_anchored_none.
  unfold match_at. cbn [run Nat.eqb]. now rewrite P.
Qed.

End Region.

Section ConnectArgsProperties.

Variable float_t : Type.
Variable strtobool : string -> option bool.
Variable int : string -> option Z.
Variable float : string -> option float_t.

Lemma opts_get_set_same (k : string) (v : optval float_t) (opts : opts_t float_t) :
  opts_get float_t k (opts_set float_t k v opts) = Some v.
Proof.
  induction opts as [|[k0 v0] opts IH]; cbn [opts_set opts_get].
  - now rewrite String.eqb_refl.
  - destruct (String.eqb k0 k) eqn:E; cbn [opts_get].
    + now rewrite String.eqb_refl.
    + now rewrite E.
Qed.

Lemma opts_get_set_other (k k' : string) (v : optval float_t) (opts : opts_t float_t) :
  k' <> k ->
  opts_get float_t k' (opts_set float_t k v opts) = opts_get float_t k' opts.
Proof.
  intros N. induction opts as [|[k0 v0] opts IH]; cbn [opts_set opts_get].
  - destruct (String.eqb_spec k k') as [->|_]; [now elim N | reflexivity].
  - destruct (String.eqb_spec k0 k) as [->|E]; cbn [opts_get].
    + destruct (String.eqb_spec k k') as [->|_]; [now elim N | reflexivity].
    + now rewrite IH.
Qed.

Lemma opts_get_update_absent (k : string) (query : dict) :
  dict_get k query = None ->
  forall opts : opts_t float_t,
    opts_get float_t k (opts_update float_t opts query)
    = opts_get float_t k opts.
Proof.
  unfold opts_update.
  induction query as [|[k0 v0] query IH]; intros H opts; cbn [fold_left];
    [reflexivity|].
  cbn [dict_get] in H. destruct (String.eqb_spec k0 k) as [->|N];
    [discriminate|].
  rewrite (IH H). cbn [fst snd]. apply opts_get_set_other. congruence.
Qed.

Lemma dict_get_not_in (k : string) (query : dict) :
  ~ In k (List.map fst query) -> dict_get k query = None.
Proof.
  induction query as [|[k0 v0] query IH]; cbn [List.map fst In dict_get];
    [reflexivity|].
  intros N. destruct (String.eqb_spec k0 k) as [->|_]; [|apply IH]; tauto.
Qed.

Lemma opts_get_update_present (k v : string) (query : dict) :
  NoDup (List.map fst query) ->
  dict_get k query = Some v ->
  forall opts : opts_t float_t,
    opts_get float_t k (opts_update float_t opts query) = Some (VStr float_t v).
Proof.
  unfold opts_update.
  induction query as [|[k0 v0] query IH]; intros D H opts; [discriminate|].
  cbn [List.map fst] in D. inversion D as [|? ? Nin D']; subst.
  cbn [dict_get] in H. cbn [fold_left fst snd].
  destruct (String.eqb_spec k0 k) as [->|N].
  - injection H as ->.
    pose proof (opts_get_update_absent k query (dict_get_not_in _ _ Nin)) as A.
    unfold opts_update in A. rewrite A. apply opts_get_set_same.
  - now apply IH.
Qed.

Lemma opts_mem_set (k k' : string) (v : optval float_t) (opts : opts_t float_t) :
  opts_mem float_t k (opts_set float_t k' v opts)
  = String.eqb k' k || opts_mem float_t k opts.
Proof.
  unfold opts_mem. destruct (String.eqb_spec k' k) as [->|N]; cbn [orb].
  - now rewrite opts_get_set_same.
  - rewrite opts_get_set_other by congruence. reflexivity.
Qed.

Lemma opts_mem_update (k : string) (query : dict) :
  forall opts : opts_t float_t,
    opts_mem float_t k (opts_update float_t opts query)
    = opts_mem float_t k opts || dict_mem k query.
Proof.
  unfold opts_update, dict_mem.
  induction query as [|[k0 v0] query IH]; intros opts;
    cbn [fold_left dict_get fst snd]; [now rewrite orb_false_r|].
  rewrite IH, opts_mem_set.
  destruct (String.eqb k0 k); cbn [orb]; [now rewrite orb_true_r | reflexivity].
Qed.

Lemma opts_mem_merged (url : URL) (k : string) :
  In k coerced_names ->
  opts_mem float_t k (merged_opts float_t url) = dict_mem k (url_query url).
Proof.
  intros K. unfold merged_opts. rewrite opts_mem_update.
  cbn [coerced_names In] in K.
  destruct K as [<- | [<- | [<- | [<- | []]]]]; reflexivity.
Qed.

Lemma _create_connect_args_unfold (url : URL) :
  _create_connect_args float_t strtobool int float url
  = let opts := merged_opts float_t url in
    let opts :=
      if dict_mem "verify" (url_query url) then
        opts_set float_t "verify"
          match opts_get float_t "verify" opts with
          | Some (VStr _ s) =>
              match strtobool s with
              | Some b => VBool float_t b
              | None => VStr float_t s
              end
          | Some v => v
          | None => VNone float_t
          end opts
      else opts in
    opts <-
      match dict_get "duration_seconds" (url_query url) with
      | Some s =>
          match int s with
          | Some n => Ok (opts_set float_t "duration_seconds"
                                   (VInt float_t n) opts)
          | None => Raise ValueError
          end
      | None => Ok opts
      end ;;
    opts <-
      match dict_get "poll_interval" (url_query url) with
      | Some s =>
          match float s with
          | Some x => Ok (opts_set float_t "poll_interval"
                                   (VFloat float_t x) opts)
          | None => Raise ValueError
          end
      | None => Ok opts
      end ;;
    opts <-
      match dict_get "kill_on_interrupt" (url_query url) with
      | Some s =>
          match strtobool s with
          | Some b => Ok (opts_set float_t "kill_on_interrupt"
                                   (VBool float_t b) opts)
          | None => Raise ValueError
          end
      | None => Ok opts
      end ;;
    Ok opts.
Proof.
  unfold _create_connect_args. fold (merged_opts float_t url). cbv zeta.
  rewrite (opts_mem_merged url "verify") by (cbn; auto).
  set (o1 := if dict_mem "verify" (url_query url) then _ else _).
  assert (forall k, In k ["duration_seconds"; "poll_interval";
                          "kill_on_interrupt"] ->
                    opts_mem float_t k o1 = dict_mem k (url_query url)) as H1.
  { intros k K. subst o1.
    destruct (dict_mem "verify" (url_query url)).
    - rewrite opts_mem_set, opts_mem_merged by (cbn in *; tauto).
      cbn in K. destruct K as [<- | [<- | [<- | []]]]; reflexivity.
    - apply opts_mem_merged. cbn in *. tauto. }
  rewrite (H1 "duration_seconds") by (cbn; auto).
  unfold dict_mem at 1, dict_lookup at 1.
  destruct (dict_get "duration_seconds" (url_query url)) as [sd|];
    cbn [bind].
  - destruct (int sd) as [n|]; cbn [bind]; [|reflexivity].
    rewrite opts_mem_set, (H1 "poll_interval") by (cbn; auto). cbn [orb String.eqb Ascii.eqb Bool.eqb].
    unfold dict_mem at 1, dict_lookup at 1.
    destruct (dict_get "poll_interval" (url_query url)) as [sp|]; cbn [bind].
    + destruct (float sp) as [x|]; cbn [bind]; [|reflexivity].
      rewrite !opts_mem_set, (H1 "kill_on_interrupt") by (cbn; auto).
      cbn [orb String.eqb Ascii.eqb Bool.eqb].
      unfold dict_mem, dict_lookup.
      destruct (dict_get "kill_on_interrupt" (url_query url)); reflexivity.
    + rewrite !opts_mem_set, (H1 "kill_on_interrupt") by (cbn; auto).
      cbn [orb String.eqb Ascii.eqb Bool.eqb].
      unfold dict_mem, dict_lookup.
      destruct (dict_get "kill_on_interrupt" (url_query url)); reflexivity.
  - rewrite (H1 "poll_interval") by (cbn; auto).
    unfold dict_mem at 1, dict_lookup at 1.
    destruct (dict_get "poll_interval" (url_query url)) as [sp|]; cbn [bind].
    + destruct (float sp) as [x|]; cbn [bind]; [|reflexivity].
      rewrite !opts_mem_set, (H1 "kill_on_interrupt") by (cbn; auto).
      cbn [orb String.eqb Ascii.eqb Bool.eqb].
      unfold dict_mem, dict_lookup.
      destruct (dict_get "kill_on_interrupt" (url_query url)); reflexivity.
    + rewrite (H1 "kill_on_interrupt") by (cbn; auto).
      unfold dict_mem, dict_lookup.
      destruct (dict_get "kill_on_interrupt" (url_query url)); reflexivity.
Qed.

Lemma _create_connect_args_keeps (url : URL) (opts : opts_t float_t)
    (k : string) :
  _create_connect_args float_t strtobool int float url = Ok opts ->
  ~ In k coerced_names ->
  opts_get float_t k opts = opts_get float_t k (merged_opts float_t url).
Proof.
  rewrite _create_connect_args_unfold. cbv zeta. intros H K.
  cbn [coerced_names In] in K.
  assert (k <> "verify" /\ k <> "duration_seconds" /\ k <> "poll_interval"
          /\ k <> "kill_on_interrupt") as (Kv & Kd & Kp & Kk)
    by (repeat split; intros ->; tauto).
  set (o1 := if dict_mem "verify" (url_query url) then _ else _) in H.
  assert (opts_get float_t k o1 = opts_get float_t k (merged_opts float_t url))
    as E1.
  { subst o1. destruct (dict_mem "verify" (url_query url)); [|reflexivity].
    now apply opts_get_set_other. }
  rewrite <- E1. clear E1. revert H. generalize o1. clear o1. intros o1 H.
  destruct (dict_get "duration_seconds" (url_query url)) as [sd|];
    [destruct (int sd) as [n|]; [|discriminate]|];
    destruct (dict_get "poll_interval" (url_query url)) as [sp|];
    try (destruct (float sp) as [x|]; [|discriminate]);
    destruct (dict_get "kill_on_interrupt" (url_query url)) as [sk|];
    try (destruct (strtobool sk) as [b|]; [|discriminate]);
    cbn [bind] in H; injection H as <-;
    rewrite ?opts_get_set_other by assumption; reflexivity.
Qed.

(** X16: unless the query of the URL says otherwise, the region of a
    connection is the part of the host between "athena." and
    ".amazonaws.com" (or ".amazonaws.com.cn") when that part is made of
    lowercase letters, digits and hyphens, and the whole host when the host
    does not start with "athena."; the schema is the database of the URL,
    or "default" when the URL has none. *)
Theorem arguments_read_from_the_url (url : URL) (opts : opts_t float_t) :
  _create_connect_args float_t strtobool int float url = Ok opts ->
  (dict_get "region_name" (url_query url) = None ->
   (forall region tld,
       url_host url = "athena." ++ region ++ ".amazonaws." ++ tld ->
       region <> "" -> all_chars region_char region = true ->
       tld = "com" \/ tld = "com.cn" ->
       opts_get float_t "region_name" opts = Some (VStr float_t region))
   /\ (String.prefix "athena." (url_host url) = false ->
       opts_get float_t "region_name" opts
       = Some (VStr float_t (url_host url))))
  /\ (dict_get "schema_name" (url_query url) = None ->
      opts_get float_t "schema_name" opts
      = Some (VStr float_t
                (match url_database url with
                 | Some "" | None => "default"
                 | Some database => database
                 end))).
Proof.
  intros H. split.
  - intros Q.
    assert (opts_get float_t "region_name" opts
            = Some (VStr float_t (Re.sub _pattern_region "1" (url_host url))))
      as E.
    { rewrite (_create_connect_args_keeps url opts "region_name" H)
        by (cbn; intuition discriminate).
      unfold merged_opts. now rewrite opts_get_update_absent. }
    split.
    + intros region tld Hh N A T. rewrite E, Hh. now rewrite sub_region.
    + intros P. rewrite E. now rewrite sub_region_other.
  - intros Q.
    rewrite (_create_connect_args_keeps url opts "schema_name" H)
      by (cbn; intuition discriminate).
    unfold merged_opts. rewrite opts_get_update_absent by exact Q.
    cbn. now destruct (url_database url) as [[|]|].
Qed.

(** X17: every argument of the query other than the four coerced ones
    reaches the connection as the text it has in the query, and it takes
    the place of the argument of that name read from the URL: a
    [region_name] or a [schema_name] in the query overrides the host and
    the database. *)
Theorem query_arguments_pass_through
    (url : URL) (opts : opts_t float_t) (k v : string) :
  _create_connect_args float_t strtobool int float url = Ok opts ->
  NoDup (List.map fst (url_query url)) ->
  ~ In k coerced_names ->
  dict_get k (url_query url) = Some v ->
  opts_get float_t k opts = Some (VStr float_t v).
Proof.
  intros H D K Q. rewrite (_create_connect_args_keeps url opts k H K).
  unfold merged_opts. now apply opts_get_update_present.
Qed.

(** X18: the coercions.  [verify] becomes a boolean when [strtobool] reads
    it and stays the text it was otherwise (the name of a certificate
    bundle), so it never stops the call; [duration_seconds],
    [poll_interval] and [kill_on_interrupt] become an integer, a float and
    a boolean, and the call raises, with the ValueError of the conversion,
    exactly when one of these three is in the query with a text that its
    conversion does not read. *)
Theorem coerced_arguments (url : URL) :
  ((exists e,
       _create_connect_args float_t strtobool int float url = Raise e)
   <-> (exists s, dict_get "duration_seconds" (url_query url) = Some s
                  /\ int s = None)
       \/ (exists s, dict_get "poll_interval" (url_query url) = Some s
                     /\ float s = None)
       \/ (exists s, dict_get "kill_on_interrupt" (url_query url) = Some s
                     /\ strtobool s = None))
  /\ (forall e,
        _create_connect_args float_t strtobool int float url = Raise e ->
        e = ValueError)
  /\ (forall opts,
        _create_connect_args float_t strtobool int float url = Ok opts ->
        (forall s, dict_get "duration_seconds" (url_query url) = Some s ->
                   exists n, int s = Some n
                             /\ opts_get float_t "duration_seconds" opts
                                = Some (VInt float_t n))
        /\ (forall s, dict_get "poll_interval" (url_query url) = Some s ->
                      exists x, float s = Some x
                                /\ opts_get float_t "poll_interval" opts
                                   = Some (VFloat float_t x))
        /\ (forall s, dict_get "kill_on_interrupt" (url_query url) = Some s ->
                      exists b, strtobool s = Some b
                                /\ opts_get float_t "kill_on_interrupt" opts
                                   = Some (VBool float_t b))
        /\ (NoDup (List.map fst (url_query url)) ->
            forall s, dict_get "verify" (url_query url) = Some s ->
                      opts_get float_t "verify" opts
                      = Some (match strtobool s with
                              | Some b => VBool float_t b
                              | None => VStr float_t s
                              end))).
Proof.
  rewrite _create_connect_args_unfold. cbv zeta.
  set (o1 := if dict_mem "verify" (url_query url) then _ else _).
  assert (NoDup (List.map fst (url_query url)) ->
          forall s, dict_get "verify" (url_query url) = Some s ->
                    opts_get float_t "verify" o1
                    = Some (match strtobool s with
                            | Some b => VBool float_t b
                            | None => VStr float_t s
                            end)) as V.
  { intros D s Q. subst o1. unfold dict_mem. rewrite Q.
    rewrite opts_get_set_same. unfold merged_opts.
    now rewrite (opts_get_update_present "verify" s _ D Q). }
  clearbody o1.
  destruct (dict_get "duration_seconds" (url_query url)) as [sd|];
    [destruct (int sd) as [n|] eqn:Ed|];
    (destruct (dict_get "poll_interval" (url_query url)) as [sp|];
     [destruct (float sp) as [x|] eqn:Ep|]);
    (destruct (dict_get "kill_on_interrupt" (url_query url)) as [sk|];
     [destruct (strtobool sk) as [b|] eqn:Ek|]);
    cbn [bind]; (split; [split|split]).
  all: try (intros [e H]; discriminate H).
  all: try (intros _; eexists; reflexivity).
  all: try (intros e H; discriminate H).
  all: try (intros e H; injection H as <-; reflexivity).
  all: try (intros opts H; discriminate H).
  all: try (intros [(s & Hs & B) | [(s & Hs & B) | (s & Hs & B)]];
            congruence).
  all: try (intros _; first
              [ left; eexists; split; [reflexivity | assumption]
              | right; left; eexists; split; [reflexivity | assumption]
              | right; right; eexists; split; [reflexivity | assumption] ]).
  all: intros opts H; injection H as <-; (split; [|split; [|split]]).
  all: try (intros s Hs; discriminate Hs).
  all: try (intros s Hs; injection Hs as <-; eexists;
            split; [eassumption|];
            rewrite ?opts_get_set_other by discriminate;
            apply opts_get_set_same).
  all: intros D s Q; rewrite ?opts_get_set_other by discriminate;
    now apply V.
Qed.

End ConnectArgsProperties.

Lemma arguments_read_from_the_url_witness :
  let url := mkURL (Some "key") (Some "secret")
                   "athena.us-west-2.amazonaws.com" None [] in
  exists opts,
    _create_connect_args string strtobool_distutils int_decimal Some url
    = Ok opts
    /\ opts_get string "region_name" opts = Some (VStr string "us-west-2")
    /\ opts_get string "schema_name" opts = Some (VStr string "default").
Proof.
  intros url.
  destruct (_create_connect_args string strtobool_distutils int_decimal Some url)
    as [opts|e] eqn:E; [|discriminate E].
  exists opts. split; [reflexivity|].
  destruct (arguments_read_from_the_url
              string strtobool_distutils int_decimal Some url opts E)
    as [R S].
  split.
  - apply (proj1 (R eq_refl) "us-west-2" "com"); try reflexivity;
      [discriminate | now left].
  - exact (S eq_refl).
Defined.

Lemma query_arguments_pass_through_witness :
  let url := mkURL None None "athena.us-west-2.amazonaws.com" (Some "logs")
                   [("s3_staging_dir", "s3://b/"); ("schema_name", "other")] in
  exists opts,
    _create_connect_args string strtobool_distutils int_decimal Some url
    = Ok opts
    /\ opts_get string "schema_name" opts = Some (VStr string "other").
Proof.
  intros url.
  destruct (_create_connect_args string strtobool_distutils int_decimal Some url)
    as [opts|e] eqn:E; [|discriminate E].
  exists opts. split; [reflexivity|].
  apply (query_arguments_pass_through
           string strtobool_distutils int_decimal Some url opts
           "schema_name" "other" E).
  - repeat constructor; cbn; intuition discriminate.
  - cbn; intuition discriminate.
  - reflexivity.
Defined.

(** The coercions on a query of a connection string. *)
Example coerced_arguments_example :
  _create_connect_args string strtobool_distutils int_decimal Some
    (mkURL None None "athena.eu-west-1.amazonaws.com" None
           [("verify", "/etc/ca.pem"); ("duration_seconds", "900");
            ("kill_on_interrupt", "True")])
  = Ok [("aws_access_key_id", VNone string);
        ("aws_secret_access_key", VNone string);
        ("region_name", VStr string "eu-west-1");
        ("schema_name", VStr string "default");
        ("verify", VStr string "/etc/ca.pem");
        ("duration_seconds", VInt string 900%Z);
        ("kill_on_interrupt", VBool string true)].
Proof. reflexivity. Qed.

(** * The one write of the compiler *)

Section OnlyWrite.

Context {tk : Toolkit}.
Import AthenaDDLCompiler.

(** X19: a compilation leaves the table as it was, except in one case: a
    table that has table properties of its own, for which a codec is
    resolved and whose storage format has a compression key, comes out with
    that key set to the uppercased codec in its own properties, and with
    nothing else changed.  A compilation that raises changes nothing. *)
Theorem compile_only_write (table : Table) :
  snd (compile table) = table
  \/ exists own codec key sql,
      opt_tblproperties table = Some own /\ own <> []
      /\ resolve_compression table = Some codec /\ codec <> ""
      /\ dict_get (lower (resolve_stored_as table)) COMPRESSION_TBLPROPERTY_KEY
         = Some key
      /\ fst (compile table) = Ok sql
      /\ snd (compile table)
         = set_tblproperties table (dict_set key (upper codec) own).
Proof.
  unfold compile.
  destruct (visit_create_table table) as [[sql table1]|e] eqn:V;
    cbn [fst snd]; [|now left].
  apply visit_create_table_ok in V as (post & _ & Hpost & _).
  apply post_create_table_ok in Hpost
    as (location & properties & _ & _ & R & -> & _).
  destruct (snd (local_tblproperties table)) eqn:A; [|now left].
  apply local_tblproperties_aliased in A as [O N].
  unfold resolve_tblproperties, dict_lookup in R.
  destruct (resolve_compression table) as [[|c codec]|] eqn:C;
    cbn [truthy] in R;
    try (injection R as <-; left; now apply set_tblproperties_same).
  destruct (dict_get (lower (resolve_stored_as table))
                     COMPRESSION_TBLPROPERTY_KEY) as [key|] eqn:K;
    cbn [bind str_of_opt] in R; [|discriminate].
  injection R as <-. right.
  exists (fst (local_tblproperties table)), (String c codec), key, sql.
  repeat split; try assumption; discriminate.
Qed.

End OnlyWrite.
